(** * A read-through cache in front of the Twitter API: the worker of
      [src/index.ts], embedded and checked against its specification.

    The worker is one asynchronous handler, [fetch].  It talks to three
    collaborators: the R2 bucket [env.MY_BUCKET], the clock [Date.now()] and
    the upstream API reached through the global [fetch].  The embedding keeps
    the handler as a program over those calls (module [Platform]), gives the
    JavaScript built-ins it relies on (module [JS]), transcribes the handler
    (module [Worker]) and the in-memory bucket of the test-suite (module
    [Mock]), and then states the properties. *)

From Stdlib Require Import ZArith NArith Ascii String DecimalString Lia.
From stdpp Require Import base option list strings gmap.

(* ===================================================================== *)
(** * The JavaScript built-ins used by the handler *)
(* ===================================================================== *)

Module JS.

(** A JavaScript string is a sequence of code units; [string] carries the
    code units U+0000..U+00FF, one per [ascii]. *)

(** [x || d] on a value that is a string or [null]: [null] and the empty
    string are falsy. *)
Definition string_or (x : option string) (d : string) : string :=
  match x with
  | None => d
  | Some EmptyString => d
  | Some s => s
  end.

(** Decimal numeral of a natural number, without sign or leading zeros. *)
Definition digits (n : N) : string := NilEmpty.string_of_uint (N.to_uint n).

Fixpoint zeros (n : nat) : string :=
  match n with
  | O => ""
  | S n' => String "0" (zeros n')
  end.

(** ** Number values

    Only the Number values [parseInt] can return are needed: NaN, the
    infinities, and the integers that are binary64 values, with their sign
    (so that [-0] is there).  The magnitude of a [Finite] value is exact. *)
Inductive Number : Type :=
| NaN
| Finite (negative : bool) (magnitude : N)
| Infinity (negative : bool).

(** ToBoolean on a Number: NaN, +0 and -0 are falsy. *)
Definition truthy (x : Number) : bool :=
  match x with
  | NaN => false
  | Finite _ 0%N => false
  | Finite _ _ => true
  | Infinity _ => true
  end.

(** [x || d] on Numbers. *)
Definition number_or (x d : Number) : Number := if truthy x then x else d.

(** The binary64 value nearest to a natural number, ties to even; [None]
    when the result overflows to infinity. *)
Definition round_to_double (n : N) : option N :=
  let bits := N.size n in
  if (bits <=? 53)%N then Some n
  else
    let e := (bits - 53)%N in
    let q := N.shiftr n e in
    let r := N.land n (N.ones e) in
    let half := N.shiftl 1 (e - 1) in
    let q' := if (r <? half)%N then q
              else if (half <? r)%N then (q + 1)%N
              else if N.even q then q else (q + 1)%N in
    let v := N.shiftl q' e in
    if (N.size v <=? 1024)%N then Some v else None.

Definition rounds_to (candidate x : N) : bool :=
  match round_to_double candidate with
  | Some v => (v =? x)%N
  | None => false
  end.

(** Number::toString, steps 5: the least [k] and the [s] of [k] digits with
    [s * 10^(n-k)] rounding to [x]; among two such [s] the one nearer to [x],
    the even one on a tie.  Returns [(s, n)]. *)
Fixpoint shortest (fuel : nat) (k n x : N) : N * N :=
  match fuel with
  | O => (x, n)
  | S fuel' =>
      if (n <=? k)%N then (x, n)
      else
        let scale := (10 ^ (n - k))%N in
        let lo := (x / scale)%N in
        let hi := (lo + 1)%N in
        let pick (s : N) := if (s =? 10 ^ k)%N then (1%N, (n + 1)%N) else (s, n) in
        match rounds_to (lo * scale) x, rounds_to (hi * scale) x with
        | true, true =>
            let below := (x - lo * scale)%N in
            let above := (hi * scale - x)%N in
            if (below <? above)%N then pick lo
            else if (above <? below)%N then pick hi
            else if N.even lo then pick lo else pick hi
        | true, false => pick lo
        | false, true => pick hi
        | false, false => shortest fuel' (k + 1)%N n x
        end
  end.

(** Number::toString(x) in radix 10, on the values of [Number]. *)
Definition Number_toString (x : Number) : string :=
  match x with
  | NaN => "NaN"
  | Infinity negative => (if negative then "-" else "") +:+ "Infinity"
  | Finite _ 0%N => "0"
  | Finite negative m =>
      let len := N.of_nat (String.length (digits m)) in
      let '(s, n) := shortest (N.to_nat len) 1 len m in
      let ds := digits s in
      let k := String.length ds in
      (if negative then "-" else "") +:+
      (if (n <=? 21)%N then ds +:+ zeros (N.to_nat n - k)
       else
         let e := digits (n - 1) in
         match ds with
         | EmptyString => ""
         | String c EmptyString => String c ("e+" +:+ e)
         | String c rest => String c ("." +:+ rest +:+ "e+" +:+ e)
         end)
  end.

(** ** parseInt *)

(** StrWhiteSpaceChar among the code units below 256: TAB, LF, VT, FF, CR,
    SP and NBSP. *)
Definition StrWhiteSpaceChar (c : ascii) : bool :=
  let n := N_of_ascii c in
  ((9 <=? n) && (n <=? 13) || (n =? 32) || (n =? 160))%N.

Fixpoint trim_start (s : string) : string :=
  match s with
  | String c rest => if StrWhiteSpaceChar c then trim_start rest else s
  | EmptyString => s
  end.

(** The value of a code unit as a digit of radix [R] (10 or 16 here). *)
Definition radix_digit (R : N) (c : ascii) : option N :=
  let n := N_of_ascii c in
  let v := if ((48 <=? n) && (n <=? 57))%N then Some (n - 48)%N
           else if ((97 <=? n) && (n <=? 122))%N then Some (n - 87)%N
           else if ((65 <=? n) && (n <=? 90))%N then Some (n - 55)%N
           else None in
  match v with
  | Some d => if (d <? R)%N then Some d else None
  | None => None
  end.

(** The longest prefix of radix-[R] digits, as digit values. *)
Fixpoint digit_prefix (R : N) (s : string) : list N :=
  match s with
  | EmptyString => []
  | String c rest =>
      match radix_digit R c with
      | Some d => d :: digit_prefix R rest
      | None => []
      end
  end.

Definition radix_value (R : N) (ds : list N) : N :=
  fold_left (fun acc d => (acc * R + d)%N) ds 0%N.

(** [parseInt(string)] with the radix left out.  The integer denoted by the
    digits is taken exactly before it is rounded to a Number (the standard
    lets an implementation zero the decimal digits after the 20th). *)
Definition parseInt (inputString : string) : Number :=
  let S1 := trim_start inputString in
  let '(negative, S2) :=
    match S1 with
    | String "-" rest => (true, rest)
    | String "+" rest => (false, rest)
    | _ => (false, S1)
    end in
  let '(R, S3) :=
    match S2 with
    | String "0" (String "x" rest) => (16%N, rest)
    | String "0" (String "X" rest) => (16%N, rest)
    | _ => (10%N, S2)
    end in
  match digit_prefix R S3 with
  | [] => NaN
  | Z =>
      match round_to_double (radix_value R Z) with
      | Some v => Finite negative v
      | None => Infinity negative
      end
  end.

(** ** JSON values and JSON.stringify

    What [response.json()] yields.  An object lists its own properties in
    enumeration order.  A number leaf is carried by the numeral that
    JSON.stringify prints for it: the handler forwards the payload and never
    computes with it. *)
#[local] Unset Elimination Schemes.
Inductive JsValue : Type :=
| JNull
| JBool (b : bool)
| JNumber (numeral : string)
| JString (s : string)
| JArray (elements : list JsValue)
| JObject (properties : list (string * JsValue)).
#[local] Set Elimination Schemes.

(** The code unit U+0022, the double quote. *)
Definition quotation_mark : ascii := "034"%char.

Definition hex_digit (n : N) : ascii :=
  ascii_of_N (if (n <? 10)%N then 48 + n else 87 + n).

(** QuoteJSONString on code units below 256. *)
Fixpoint quote_units (s : string) : string :=
  match s with
  | EmptyString => ""
  | String c rest =>
      let n := N_of_ascii c in
      (if (n =? 8)%N then "\b"
       else if (n =? 9)%N then "\t"
       else if (n =? 10)%N then "\n"
       else if (n =? 12)%N then "\f"
       else if (n =? 13)%N then "\r"
       else if (n =? 34)%N then String "\" (String quotation_mark "")
       else if (n =? 92)%N then "\\"
       else if (n <? 32)%N then
         "\u00" +:+ String (hex_digit (n / 16)) (String (hex_digit (n mod 16)) "")
       else String c "") +:+ quote_units rest
  end.

Definition QuoteJSONString (s : string) : string :=
  String quotation_mark (quote_units s +:+ String quotation_mark "").

Fixpoint join (sep : string) (parts : list string) : string :=
  match parts with
  | [] => ""
  | [p] => p
  | p :: rest => p +:+ sep +:+ join sep rest
  end.

(** [JSON.stringify(value)] with no replacer and no indentation. *)
Fixpoint JSON_stringify (value : JsValue) : string :=
  match value with
  | JNull => "null"
  | JBool true => "true"
  | JBool false => "false"
  | JNumber numeral => numeral
  | JString s => QuoteJSONString s
  | JArray elements =>
      "[" +:+ join "," (List.map JSON_stringify elements) +:+ "]"
  | JObject properties =>
      "{" +:+
      join "," (List.map (fun p => QuoteJSONString (fst p) +:+ ":" +:+ JSON_stringify (snd p))
                         properties) +:+
      "}"
  end.

End JS.

(* ===================================================================== *)
(** * The platform: requests, responses, and the calls a handler makes *)
(* ===================================================================== *)

Module Platform.
Import JS.

(** A thrown value. *)
Record Error : Type := new_Error { message : string }.

(** How an awaited call completes: it throws, or it yields a value. *)
Inductive Completion (A : Type) : Type :=
| Throw (e : Error)
| Normal (value : A).
Arguments Throw {A} e.
Arguments Normal {A} value.

(** A headers object literal: its entries in the order written. *)
Definition HeadersInit : Type := list (string * string).

Definition Headers_get (name : string) (h : HeadersInit) : option string :=
  snd <$> List.find (fun entry => String.eqb (fst entry) name) h.

(** [new URL(request.url)]: only the query is read, as name-value pairs in
    the order of the query string. *)
Record URL : Type := { searchParams : list (string * string) }.

(** [searchParams.get(name)]: the value of the first pair with that name,
    [null] when there is none. *)
Definition URLSearchParams_get (params : list (string * string)) (name : string)
  : option string :=
  snd <$> List.find (fun pair => String.eqb (fst pair) name) params.

Record Request : Type := { method : string; url : URL }.

(** The responses the handler builds with [new Response(body, init)]. *)
Record ResponseInit : Type := { init_status : option N; init_headers : HeadersInit }.

Record Response : Type := { body : string; status : N; headers : HeadersInit }.

(** A status left [undefined] is 200. *)
Definition new_Response (body : string) (init : ResponseInit) : Response :=
  {| body := body;
     status := default 200%N (init_status init);
     headers := init_headers init |}.

(** What the bucket hands back for a key: the stored body, the upload time
    as [uploaded.getTime()] (milliseconds since the epoch) and the metadata. *)
Module R2Object.
Record t : Type := { body : string; uploaded : Z; metadata : list (string * string) }.
End R2Object.

(** The response of the upstream API as the handler observes it: the status
    line, and how [await response.json()] completes. *)
Module Upstream.
Record t : Type := { status : N; statusText : string; json : Completion JsValue }.

(** [response.ok]: the status is in the range 200-299. *)
Definition ok (response : t) : bool :=
  ((200 <=? status response) && (status response <=? 299))%N.
End Upstream.

(** The bindings of the worker; [undefined] when the binding is missing. *)
Record Env : Type := { TWITTER_BEARER_TOKEN : option string }.

(** [${value}] in a template literal. *)
Definition template (value : option string) : string :=
  match value with
  | Some s => s
  | None => "undefined"
  end.

Inductive LogArg : Type :=
| LogString (s : string)
| LogError (e : Error).

(** The calls that leave the handler. *)
Inductive op : Type :=
| ConsoleLog (args : list LogArg)
| BucketGet (key : string)
| DateNow
| Fetch (input : string) (headers : HeadersInit)
| BucketPut (key value : string) (metadata : list (string * string)).

(** What each call gives back to the handler. *)
Definition answer (o : op) : Type :=
  match o with
  | ConsoleLog _ => unit
  | BucketGet _ => Completion (option R2Object.t)
  | DateNow => Z
  | Fetch _ _ => Completion Upstream.t
  | BucketPut _ _ _ => Completion unit
  end.

(** A handler is a program: it returns, or makes a call and goes on with
    the answer. *)
Inductive prog (R : Type) : Type :=
| Ret (r : R)
| Do (o : op) (k : answer o -> prog R).
Arguments Ret {R} r.
Arguments Do {R} o k.

Fixpoint bind {A B : Type} (p : prog A) (f : A -> prog B) : prog B :=
  match p with
  | Ret a => f a
  | Do o k => Do o (fun x => bind (k x) f)
  end.

Definition call (o : op) : prog (answer o) := Do o Ret.

Declare Scope prog_scope.
Delimit Scope prog_scope with prog.
Bind Scope prog_scope with prog.
Notation "'await' x ':=' p 'in' q" := (bind p (fun x => q))
  (at level 10, x name, p at level 100, q at level 200) : prog_scope.
Notation "p ;; q" := (bind p (fun _ => q))
  (at level 100, q at level 200, right associativity) : prog_scope.

Definition console_log (args : list LogArg) : prog unit := call (ConsoleLog args).

(** ** Executions

    One entry of a trace: a call together with the answer it got. *)
Inductive io : Type := IO (o : op) (a : answer o).

Definition trace : Type := list io.

(** [exec p t r]: the program [p] can make the calls of [t], get the answers
    recorded there, and return [r]. *)
Fixpoint exec {R : Type} (p : prog R) (t : trace) (r : R) : Prop :=
  match p with
  | Ret r' => t = [] /\ r = r'
  | Do o k => exists (a : answer o) (t' : trace), t = IO o a :: t' /\ exec (k a) t' r
  end.

(** An environment answers every call from its current state. *)
Record environment : Type := {
  world : Type;
  respond_to : forall o : op, world -> answer o * world
}.

Fixpoint run {R : Type} (E : environment) (p : prog R) (w : world E)
  : R * trace * world E :=
  match p with
  | Ret r => (r, [], w)
  | Do o k =>
      let '(a, w1) := respond_to E o w in
      let '(r, t, w2) := run E (k a) w1 in
      (r, IO o a :: t, w2)
  end.

(** ** What a trace shows *)

Definition store_read (i : io) : list (string * Completion (option R2Object.t)) :=
  match i with
  | IO (BucketGet key) a => [(key, a)]
  | IO _ _ => []
  end.

Definition clock_read (i : io) : list Z :=
  match i with
  | IO DateNow a => [a]
  | IO _ _ => []
  end.

Definition upstream_call (i : io) : list (string * HeadersInit * Completion Upstream.t) :=
  match i with
  | IO (Fetch input headers) a => [(input, headers, a)]
  | IO _ _ => []
  end.

Definition store_write (i : io)
  : list (string * string * list (string * string) * Completion unit) :=
  match i with
  | IO (BucketPut key value metadata) a => [(key, value, metadata, a)]
  | IO _ _ => []
  end.

Definition store_reads (t : trace) := flat_map store_read t.
Definition clock_reads (t : trace) := flat_map clock_read t.
Definition upstream_calls (t : trace) := flat_map upstream_call t.
Definition store_writes (t : trace) := flat_map store_write t.

(** The keys the bucket was asked about or written under. *)
Definition store_keys (t : trace) : list string :=
  (fst <$> store_reads t) ++ ((fun w => fst (fst (fst w))) <$> store_writes t).

End Platform.

(* ===================================================================== *)
(** * The worker, [src/index.ts] *)
(* ===================================================================== *)

Module Worker.
Import JS Platform.
#[local] Open Scope prog_scope.

Definition corsHeaders : HeadersInit :=
  [ ("Access-Control-Allow-Origin", "*");
    ("Access-Control-Allow-Methods", "GET,HEAD,POST,OPTIONS");
    ("Access-Control-Max-Age", "86400") ].

Definition respond (response : JsValue) (code : option N) : Response :=
  new_Response (JSON_stringify response)
    {| init_headers := ("content-type", "application/json") :: corsHeaders;
       init_status := code |}.

(** The three constants the handler derives from the query before any
    cache operation. *)
Definition userid (url : URL) : string :=
  string_or (URLSearchParams_get (searchParams url) "userid") "1472197491844026370".

Definition max_results_param (url : URL) : string :=
  string_or (URLSearchParams_get (searchParams url) "max_results") "6".

Definition max_results (url : URL) : Number :=
  number_or (parseInt (max_results_param url)) (Finite false 6).

Definition cacheKey (userid : string) : string := userid +:+ ".json".

Definition twitterUrl (userid : string) (max_results : Number) : string :=
  "https://api.twitter.com/2/users/" +:+
  userid +:+
  "/tweets?max_results=" +:+
  Number_toString max_results +:+
  "&tweet.fields=created_at,entities,public_metrics&expansions=author_id&user.fields=profile_image_url,username".

Definition fetch (request : Request) (env : Env) : prog Response :=
  let url := url request in
  if negb (String.eqb (method request) "GET") then
    console_log [LogString "Method Not Allowed"];;
    Ret (new_Response "Method Not Allowed"
           {| init_status := Some 405%N; init_headers := [("Allow", "GET")] |})
  else
    let userid := userid url in
    let max_results := max_results url in
    let cacheKey := cacheKey userid in
    console_log [LogString ("Using cache key: " +:+ cacheKey)];;
    await got := call (BucketGet cacheKey) in
    await object :=
      match got with
      | Normal o => Ret o
      | Throw e =>
          console_log [LogString "Error reading from R2 cache:"; LogError e];;
          Ret None
      end in
    (* the branch taken when the object is not found or too old *)
    let refresh : prog Response :=
      console_log [LogString ("Cache miss for userid " +:+ userid +:+ ", fetching new data...")];;
      let twitterUrl := twitterUrl userid max_results in
      console_log [LogString "About to fetch: "; LogString twitterUrl];;
      await fetched :=
        call (Fetch twitterUrl
                [ ("content-type", "application/json;charset=UTF-8");
                  ("Authorization", "Bearer " +:+ template (TWITTER_BEARER_TOKEN env)) ]) in
      let attempt :=
        match fetched with
        | Throw e => Throw e
        | Normal response =>
            if negb (Upstream.ok response) then
              Throw (new_Error ("HTTP " +:+ digits (Upstream.status response) +:+ ": " +:+
                                Upstream.statusText response))
            else Normal response
        end in
      match attempt with
      | Throw e =>
          console_log [LogString "Error fetching from Twitter: "; LogError e];;
          match object with
          | Some o =>
              console_log [LogString "Returning stale cached data due to API error"];;
              Ret (new_Response (R2Object.body o)
                     {| init_headers := ("content-type", "application/json") :: corsHeaders;
                        init_status := Some 200%N |})
          | None =>
              Ret (respond (JObject [("error", JString "Failed to fetch data and no cache available")])
                     (Some 500%N))
          end
      | Normal response =>
          match Upstream.json response with
          | Throw e =>
              console_log [LogString "Error parsing JSON response:"; LogError e];;
              match object with
              | Some o =>
                  console_log [LogString "Returning stale cached data due to JSON parse error"];;
                  Ret (new_Response (R2Object.body o)
                         {| init_headers := ("content-type", "application/json") :: corsHeaders;
                            init_status := Some 200%N |})
              | None =>
                  Ret (respond (JObject [("error", JString "Failed to parse response and no cache available")])
                         (Some 500%N))
              end
          | Normal data =>
              await stored :=
                call (BucketPut cacheKey (JSON_stringify data)
                        [("Content-Type", "application/json"); ("userid", userid)]) in
              match stored with
              | Normal _ => console_log [LogString ("Data cached for userid " +:+ userid)]
              | Throw e => console_log [LogString "Error storing to R2 cache:"; LogError e]
              end;;
              Ret (respond data None)
          end
      end in
    (* [object === null || object.uploaded.getTime() < Date.now() - 901_000]:
       the clock is read only when there is an object *)
    match object with
    | None => refresh
    | Some o =>
        await now := call DateNow in
        if (R2Object.uploaded o <? now - 901000)%Z then refresh
        else
          console_log [LogString ("Cache hit for userid " +:+ userid +:+ ", returning cached data...")];;
          Ret (new_Response (R2Object.body o)
                 {| init_headers := ("content-type", "application/json") :: corsHeaders;
                    init_status := Some 200%N |})
    end.

End Worker.

(* ===================================================================== *)
(** * The predecessor of the worker, kept in [src/index.ts] *)
(* ===================================================================== *)

(** The version of the handler that the implementation plan sets out to
    replace: one bucket key for every subject, the parameters read after
    the cache lookup, and no [try] around any awaited call.  [corsHeaders]
    and [respond] are the ones of the current version. *)
Module Predecessor.
Import JS Platform.
#[local] Open Scope prog_scope.

(** The upstream URL is built inside the refresh branch; there is no
    fall-back on the parsed [max_results], so NaN is printed as it is. *)
Definition twitterUrl (url : URL) : string :=
  let userid := string_or (URLSearchParams_get (searchParams url) "userid") "1472197491844026370" in
  let max_results := parseInt (string_or (URLSearchParams_get (searchParams url) "max_results") "5") in
  "https://api.twitter.com/2/users/" +:+
  userid +:+
  "/liked_tweets?max_results=" +:+
  Number_toString max_results +:+
  "&tweet.fields=created_at,entities,public_metrics&expansions=author_id&user.fields=profile_image_url,username".

(** The promise the handler returns settles with a response, or is
    rejected with whatever an awaited call threw. *)
Definition fetch (request : Request) (env : Env) : prog (Completion Response) :=
  let url := url request in
  if negb (String.eqb (method request) "GET") then
    console_log [LogString "Method Not Allowed"];;
    Ret (Normal (new_Response "Method Not Allowed"
                   {| init_status := Some 405%N; init_headers := [("Allow", "GET")] |}))
  else
    await got := call (BucketGet "latest.json") in
    match got with
    | Throw e => Ret (Throw e)
    | Normal object =>
        (* the branch taken when the object is not found or too old *)
        let refresh : prog (Completion Response) :=
          console_log [LogString "Cache miss, fetching new data..."];;
          let twitterUrl := twitterUrl url in
          console_log [LogString "About to fetch: "; LogString twitterUrl];;
          await fetched :=
            call (Fetch twitterUrl
                    [ ("content-type", "application/json;charset=UTF-8");
                      ("Authorization", "Bearer " +:+ template (TWITTER_BEARER_TOKEN env)) ]) in
          match fetched with
          | Throw e => Ret (Throw e)
          | Normal response =>
              match Upstream.json response with
              | Throw e => Ret (Throw e)
              | Normal data =>
                  await stored :=
                    call (BucketPut "latest.json" (JSON_stringify data)
                            [("Content-Type", "application/json")]) in
                  match stored with
                  | Throw e => Ret (Throw e)
                  | Normal _ => Ret (Normal (Worker.respond data None))
                  end
              end
          end in
        match object with
        | None => refresh
        | Some o =>
            await now := call DateNow in
            if (R2Object.uploaded o <? now - 600000)%Z then refresh
            else
              console_log [LogString "Cache hit, returning cached data..."];;
              Ret (Normal (new_Response (R2Object.body o)
                             {| init_headers :=
                                  ("content-type", "application/json") :: Worker.corsHeaders;
                                init_status := Some 200%N |}))
        end
    end.

End Predecessor.

(* ===================================================================== *)
(** * The in-memory bucket and the scripted upstream of the test-suite *)
(* ===================================================================== *)

Module Mock.
Import JS Platform.

(** [MockR2Bucket]: a map from keys to objects. *)
Definition MockR2Bucket : Type := gmap string R2Object.t.

(** [new MockR2Object(body, metadata, uploadTime)]; [now] stands for the
    [new Date()] taken when no upload time is given. *)
Definition MockR2Object (body : string) (metadata : list (string * string))
    (uploadTime : option Z) (now : Z) : R2Object.t :=
  {| R2Object.body := body;
     R2Object.metadata := metadata;
     R2Object.uploaded := default now uploadTime |}.

Definition get (storage : MockR2Bucket) (key : string) : option R2Object.t :=
  storage !! key.

Definition put (storage : MockR2Bucket) (key value : string)
    (metadata : list (string * string)) (now : Z) : MockR2Bucket :=
  <[key := MockR2Object value metadata None now]> storage.

Definition setWithUploadTime (storage : MockR2Bucket) (key value : string)
    (uploadTime : Z) : MockR2Bucket :=
  <[key := MockR2Object value [] (Some uploadTime) uploadTime]> storage.

(** The state a test sets up: the bucket, the time, the mocked [fetch],
    and the rejections injected into [get] and [put]. *)
Record World : Type := {
  storage : MockR2Bucket;
  clock : Z;
  mockFetch : string -> HeadersInit -> Completion Upstream.t;
  get_rejects : option Error;
  put_rejects : option Error;
  console : list (list LogArg)
}.

Definition respond_to (o : op) (w : World) : answer o * World :=
  match o return answer o * World with
  | ConsoleLog args =>
      (tt, {| storage := storage w; clock := clock w; mockFetch := mockFetch w;
              get_rejects := get_rejects w; put_rejects := put_rejects w;
              console := console w ++ [args] |})
  | BucketGet key =>
      (match get_rejects w with
       | Some e => Throw e
       | None => Normal (get (storage w) key)
       end, w)
  | DateNow => (clock w, w)
  | Fetch input headers => (mockFetch w input headers, w)
  | BucketPut key value metadata =>
      match put_rejects w with
      | Some e => (Throw e, w)
      | None =>
          (Normal tt,
           {| storage := put (storage w) key value metadata (clock w); clock := clock w;
              mockFetch := mockFetch w; get_rejects := get_rejects w;
              put_rejects := put_rejects w; console := console w |})
      end
  end.

Definition env : environment := {| world := World; Platform.respond_to := respond_to |}.

(** One request against a world: the response and the calls made. *)
Definition serve (request : Request) (bindings : Env) (w : World) : Response * trace :=
  fst (run env (Worker.fetch request bindings) w).

(** The world the request leaves behind. *)
Definition world_after (request : Request) (bindings : Env) (w : World) : World :=
  snd (run env (Worker.fetch request bindings) w).

(** The rest of [MockR2Bucket]. *)
Definition delete (storage : MockR2Bucket) (key : string) : MockR2Bucket :=
  base.delete key storage.

Definition clear (storage : MockR2Bucket) : MockR2Bucket := ∅.

(** The predecessor against a world. *)
Definition serve_predecessor (request : Request) (bindings : Env) (w : World)
  : Completion Response * trace :=
  fst (run env (Predecessor.fetch request bindings) w).

Definition world_after_predecessor (request : Request) (bindings : Env) (w : World) : World :=
  snd (run env (Predecessor.fetch request bindings) w).

(** What a recorded sequence of writes does to the bucket: a write that
    completed stores its object, stamped with the time of the world; a
    write that was rejected stores nothing. *)
Definition replay_write (now : Z) (storage : MockR2Bucket)
    (write : string * string * list (string * string) * Completion unit) : MockR2Bucket :=
  match write with
  | (key, value, metadata, Normal _) => put storage key value metadata now
  | (_, _, _, Throw _) => storage
  end.

Definition replay_writes (now : Z)
    (writes : list (string * string * list (string * string) * Completion unit))
    (storage : MockR2Bucket) : MockR2Bucket :=
  fold_left (replay_write now) writes storage.

(** The answer [put] gives in a world. *)
Definition put_answer (w : World) : Completion unit :=
  match put_rejects w with
  | Some e => Throw e
  | None => Normal tt
  end.

End Mock.

(* ===================================================================== *)
(** * The mocked Twitter API of the test-suite *)
(* ===================================================================== *)

Module TwitterMock.
Import JS Platform.

Record TwitterUser : Type := {
  user_id : string;
  username : string;
  profile_image_url : string
}.

Record PublicMetrics : Type := {
  retweet_count : N;
  like_count : N;
  reply_count : N;
  quote_count : N
}.

Record UrlEntity : Type := {
  url_start : N; url_end : N; url : string; expanded_url : string; display_url : string
}.

Record HashtagEntity : Type := { tag_start : N; tag_end : N; tag : string }.

Record Entities : Type := {
  urls : option (list UrlEntity);
  hashtags : option (list HashtagEntity)
}.

Record TwitterTweet : Type := {
  id : string;
  text : string;
  created_at : string;
  author_id : string;
  public_metrics : PublicMetrics;
  entities : option Entities
}.

Record Meta : Type := { result_count : N; newest_id : string; oldest_id : string }.

Record TwitterApiResponse : Type := {
  data : list TwitterTweet;
  includes_users : list TwitterUser;
  meta : Meta
}.

(** [Object.values(MOCK_USERS)]. *)
Definition MOCK_USERS : list TwitterUser :=
  [ {| user_id := "1472197491844026370";
       username := "MoonwellDeFi";
       profile_image_url := "https://pbs.twimg.com/profile_images/1472197491844026370/test.jpg" |};
    {| user_id := "1883305846995845120";
       username := "Mamo_agent";
       profile_image_url := "https://pbs.twimg.com/profile_images/1883305846995845120/test.jpg" |} ].

(** [array.slice(0, end)] for an [end] among the values of [Number]: NaN
    and the two zeros count as 0, a negative [end] counts from the end of
    the array, and the result is clamped to the array. *)
Definition slice_to {A : Type} (array : list A) (finish : Number) : list A :=
  match finish with
  | NaN => []
  | Infinity true => []
  | Infinity false => array
  | Finite _ 0%N => []
  | Finite true m => take (length array - N.to_nat m) array
  | Finite false m => take (N.to_nat m) array
  end.

Section WithTweets.

(** [MOCK_TWEETS]: the tweets of each mock user, by user id.  The table is
    a parameter: two of its four texts hold code units above U+00FF. *)
Variable MOCK_TWEETS : gmap string (list TwitterTweet).

(** [MOCK_TWEETS[userId] || []]. *)
Definition tweets_of (userId : string) : list TwitterTweet :=
  default [] (MOCK_TWEETS !! userId).

(** [createMockTwitterResponse(userId, maxResults = 6)]; a [maxResults]
    left out is [None]. *)
Definition createMockTwitterResponse (userId : string) (maxResults : option Number)
  : Completion TwitterApiResponse :=
  let maxResults := default (Finite false 6) maxResults in
  let user := List.find (fun u => String.eqb (user_id u) userId) MOCK_USERS in
  let tweets := tweets_of userId in
  match user with
  | None => Throw (new_Error ("Mock user not found for ID: " +:+ userId))
  | Some user =>
      let limitedTweets := slice_to tweets maxResults in
      Normal
        {| data := limitedTweets;
           includes_users := [user];
           meta :=
             {| result_count := N.of_nat (length limitedTweets);
                newest_id := string_or (id <$> head limitedTweets) "";
                oldest_id := string_or (id <$> last limitedTweets) "" |} |}
  end.

End WithTweets.

End TwitterMock.

(* ===================================================================== *)
(** * The vocabulary of the specification *)
(* ===================================================================== *)

Import JS Platform Worker.

(** The response that serves a stored object: its body, unchanged, with
    status 200 and the JSON and CORS headers. *)
Definition cached_response (object : R2Object.t) : Response :=
  new_Response (R2Object.body object)
    {| init_headers := ("content-type", "application/json") :: corsHeaders;
       init_status := Some 200%N |}.

(** The ways the upstream fetch can fail. *)
Inductive failure : Type :=
| NetworkError
| NonSuccessStatus
| UnparsableBody.

(** How one upstream call went: [None] is a success with a parseable body. *)
Definition upstream_failure (outcome : Completion Upstream.t) : option failure :=
  match outcome with
  | Throw _ => Some NetworkError
  | Normal response =>
      if negb (Upstream.ok response) then Some NonSuccessStatus
      else match Upstream.json response with
           | Throw _ => Some UnparsableBody
           | Normal _ => None
           end
  end.

(** The error object of a 500 response. *)
Definition error_body (text : string) : JsValue := JObject [("error", JString text)].

(** The message the handler gives for each kind of failure when it has
    nothing cached. *)
Definition terminal_message (kind : failure) : string :=
  match kind with
  | NetworkError | NonSuccessStatus => "Failed to fetch data and no cache available"
  | UnparsableBody => "Failed to parse response and no cache available"
  end.

(** The freshness window, in milliseconds: 901 seconds. *)
Definition FRESHNESS_WINDOW : Z := 901 * 1000.

(** ** Scenarios, in the style of the test-suite *)

Definition bindings : Env := {| TWITTER_BEARER_TOKEN := Some "test-bearer-token" |}.

Definition GET (query : list (string * string)) : Request :=
  {| method := "GET"; url := {| searchParams := query |} |}.

Definition POST (query : list (string * string)) : Request :=
  {| method := "POST"; url := {| searchParams := query |} |}.

Definition empty_payload : JsValue :=
  JObject [ ("data", JArray []);
            ("includes", JObject [("users", JArray [])]);
            ("meta", JObject [ ("result_count", JNumber "0");
                               ("newest_id", JString "");
                               ("oldest_id", JString "") ]) ].

Definition upstream_ok : string -> HeadersInit -> Completion Upstream.t :=
  fun _ _ => Normal {| Upstream.status := 200; Upstream.statusText := "OK";
                       Upstream.json := Normal empty_payload |}.

Definition upstream_unreachable : string -> HeadersInit -> Completion Upstream.t :=
  fun _ _ => Throw (new_Error "Network error").

Definition upstream_rate_limited : string -> HeadersInit -> Completion Upstream.t :=
  fun _ _ => Normal {| Upstream.status := 429; Upstream.statusText := "Too Many Requests";
                       Upstream.json := Normal (error_body "Rate limit exceeded") |}.

Definition upstream_garbled : string -> HeadersInit -> Completion Upstream.t :=
  fun _ _ => Normal {| Upstream.status := 200; Upstream.statusText := "OK";
                       Upstream.json := Throw (new_Error "Unexpected token I in JSON at position 0") |}.

Definition world_at (now : Z) (storage : Mock.MockR2Bucket)
    (mockFetch : string -> HeadersInit -> Completion Upstream.t) : Mock.World :=
  {| Mock.storage := storage; Mock.clock := now; Mock.mockFetch := mockFetch;
     Mock.get_rejects := None; Mock.put_rejects := None; Mock.console := [] |}.

Definition with_get_rejecting (e : Error) (w : Mock.World) : Mock.World :=
  {| Mock.storage := Mock.storage w; Mock.clock := Mock.clock w;
     Mock.mockFetch := Mock.mockFetch w;
     Mock.get_rejects := Some e; Mock.put_rejects := Mock.put_rejects w;
     Mock.console := Mock.console w |}.

Definition with_put_rejecting (e : Error) (w : Mock.World) : Mock.World :=
  {| Mock.storage := Mock.storage w; Mock.clock := Mock.clock w;
     Mock.mockFetch := Mock.mockFetch w;
     Mock.get_rejects := Mock.get_rejects w; Mock.put_rejects := Some e;
     Mock.console := Mock.console w |}.

Definition default_key : string := "1472197491844026370.json".

(** A bucket holding one object for the default user, with a chosen
    upload time. *)
Definition object_uploaded_at (uploadTime : Z) : R2Object.t :=
  Mock.MockR2Object "{}" [] (Some uploadTime) uploadTime.

Definition bucket_uploaded_at (uploadTime : Z) : Mock.MockR2Bucket :=
  Mock.setWithUploadTime ∅ default_key "{}" uploadTime.

Definition old_object : R2Object.t := object_uploaded_at 0.

Definition bucket_with_old_object : Mock.MockR2Bucket := bucket_uploaded_at 0.

(** The world of a request for the default user, 2000 seconds after the
    upload of [old_object]. *)
Definition stale_world (mockFetch : string -> HeadersInit -> Completion Upstream.t)
  : Mock.World :=
  world_at 2000000 bucket_with_old_object mockFetch.

(** The upstream call made for the default user and the default size
    limit, with its outcome. *)
Definition default_call (outcome : Completion Upstream.t)
  : string * HeadersInit * Completion Upstream.t :=
  (twitterUrl "1472197491844026370" (Finite false 6),
   [ ("content-type", "application/json;charset=UTF-8");
     ("Authorization", "Bearer test-bearer-token") ],
   outcome).

(** ** More vocabulary: the shape of an execution *)

(** The object the handler holds after the cache lookup: none when the
    read threw. *)
Definition read_object (got : Completion (option R2Object.t)) : option R2Object.t :=
  match got with
  | Normal object => object
  | Throw _ => None
  end.

(** The calls that reach a collaborator other than the console. *)
Inductive call_kind : Type :=
| Read
| Clock
| CallUpstream
| Write.

Definition call_kind_of (i : io) : list call_kind :=
  match i with
  | IO (ConsoleLog _) _ => []
  | IO (BucketGet _) _ => [Read]
  | IO DateNow _ => [Clock]
  | IO (Fetch _ _) _ => [CallUpstream]
  | IO (BucketPut _ _ _) _ => [Write]
  end.

Definition call_kinds (t : trace) : list call_kind := flat_map call_kind_of t.

(** The standard headers of a JSON response of the worker. *)
Definition json_headers : HeadersInit :=
  ("content-type", "application/json") :: corsHeaders.

(** The freshness window of the predecessor, in milliseconds. *)
Definition PREDECESSOR_WINDOW : Z := 600 * 1000.

(** The two users of the test-suite. *)
Definition MOONWELL_DEFI : string := "1472197491844026370".
Definition MAMO_AGENT : string := "1883305846995845120".

(** What was printed on the console, one entry per [console.log]. *)
Definition log_of (i : io) : list (list LogArg) :=
  match i with
  | IO (ConsoleLog args) _ => [args]
  | IO _ _ => []
  end.

Definition logs (t : trace) : list (list LogArg) := flat_map log_of t.

(** Two tweets, for examples. *)
Definition tweet (id author : string) : TwitterMock.TwitterTweet :=
  {| TwitterMock.id := id;
     TwitterMock.text := "New governance proposal is live! Check it out and participate.";
     TwitterMock.created_at := "2024-01-14T15:30:00.000Z";
     TwitterMock.author_id := author;
     TwitterMock.public_metrics :=
       {| TwitterMock.retweet_count := 18; TwitterMock.like_count := 89;
          TwitterMock.reply_count := 8; TwitterMock.quote_count := 3 |};
     TwitterMock.entities := None |}.

Definition two_tweets : gmap string (list TwitterMock.TwitterTweet) :=
  {[ MOONWELL_DEFI := [tweet "1001" MOONWELL_DEFI; tweet "1002" MOONWELL_DEFI] ]}.

(** ** A bucket that lives through several requests *)

(** One arrival: a request, the bindings, and the conditions it meets -
    the time, what upstream answers, whether [get] and [put] reject. *)
Record Arrival : Type := {
  arrival_request : Request;
  arrival_bindings : Env;
  arrival_clock : Z;
  arrival_fetch : string -> HeadersInit -> Completion Upstream.t;
  arrival_get_rejects : option Error;
  arrival_put_rejects : option Error
}.

Definition arrival_world (storage : Mock.MockR2Bucket) (a : Arrival) : Mock.World :=
  {| Mock.storage := storage; Mock.clock := arrival_clock a;
     Mock.mockFetch := arrival_fetch a;
     Mock.get_rejects := arrival_get_rejects a;
     Mock.put_rejects := arrival_put_rejects a;
     Mock.console := [] |}.

(** The worker invoked once per arrival, in order, on the same bucket: the
    responses, and the bucket at the end. *)
Fixpoint serve_session (storage : Mock.MockR2Bucket) (arrivals : list Arrival)
  : list Response * Mock.MockR2Bucket :=
  match arrivals with
  | [] => ([], storage)
  | a :: rest =>
      let w := arrival_world storage a in
      let response := fst (Mock.serve (arrival_request a) (arrival_bindings a) w) in
      let storage' :=
        Mock.storage (Mock.world_after (arrival_request a) (arrival_bindings a) w) in
      let '(responses, final) := serve_session storage' rest in
      (response :: responses, final)
  end.

(** A GET for a subject whose bucket read is not rejected. *)
Definition reads_subject (subject : string) (a : Arrival) : Prop :=
  method (arrival_request a) = "GET" /\
  userid (url (arrival_request a)) = subject /\
  arrival_get_rejects a = None.

(** A session for examples: upstream is down, then a POST, then a request
    for another user, then upstream is rate limited. *)
Definition arrival (request : Request) (now : Z)
    (mockFetch : string -> HeadersInit -> Completion Upstream.t) : Arrival :=
  {| arrival_request := request; arrival_bindings := bindings;
     arrival_clock := now; arrival_fetch := mockFetch;
     arrival_get_rejects := None; arrival_put_rejects := None |}.

Definition outage : list Arrival :=
  [ arrival (GET []) 2000000 upstream_unreachable;
    arrival (POST []) 2000001 upstream_ok;
    arrival (GET [("userid", MAMO_AGENT)]) 2000002 upstream_ok;
    arrival (GET []) 3000000 upstream_rate_limited ].

(** ** Proof tools *)

(** One step of an execution of the handler: name the answer of the next
    call, or split on the value the handler branches on. *)
Ltac exec_step H :=
  cbn [exec bind call console_log] in H;
  lazymatch type of H with
  | exists _, _ =>
      let a := fresh "a" in
      let t' := fresh "t" in
      destruct H as (a & t' & -> & H)
  | _ = [] /\ _ = _ => destruct H as [-> ->]
  | exec (bind (match ?x with _ => _ end) _) _ _ => destruct x eqn:?
  | exec (match match ?x with _ => _ end with _ => _ end) _ _ => destruct x eqn:?
  | exec (match ?x with _ => _ end) _ _ => destruct x eqn:?
  end.

(** The next call of an execution, with names for its answer and for the
    rest of the trace. *)
Ltac exec_call H a t' :=
  cbn [exec bind call console_log] in H;
  destruct H as (a & t' & -> & H).

(** Read the calls off a trace whose shape is known. *)
Ltac read_trace :=
  cbn [store_reads clock_reads upstream_calls store_writes store_keys
       flat_map store_read clock_read upstream_call store_write app fmap list_fmap fst snd] in *.

(** Every path of the handler for a GET request. *)
Ltac fetch_paths Hm Hexec :=
  unfold fetch in Hexec; rewrite Hm in Hexec;
  change (negb (String.eqb "GET" "GET")) with false in Hexec;
  repeat exec_step Hexec; read_trace.

(* ===================================================================== *)
(** * Executions *)
(* ===================================================================== *)

Lemma run_exec {R : Type} (E : environment) (p : prog R) :
  forall (w : world E) r t w', run E p w = (r, t, w') -> exec p t r.
Proof.
  induction p as [r0 | o k IH]; intros w r t w' Hrun; cbn in *.
  - injection Hrun as <- <- _. split; reflexivity.
  - destruct (respond_to E o w) as [a w1] eqn:Ha.
    destruct (run E (k a) w1) as [[r1 t1] w2] eqn:Hk.
    injection Hrun as <- <- _.
    exists a, t1. split; [reflexivity | eapply IH; eassumption].
Qed.

(** What the mock world serves is an execution of the handler. *)
Lemma serve_exec (request : Request) (env : Env) (w : Mock.World) :
  exec (fetch request env) (snd (Mock.serve request env w)) (fst (Mock.serve request env w)).
Proof.
  unfold Mock.serve.
  destruct (run Mock.env (fetch request env) w) as [[r t] w'] eqn:Hrun.
  exact (run_exec Mock.env _ _ _ _ _ Hrun).
Qed.

(** The built-ins on the inputs the test-suite and the standard mention. *)
Example parseInt_examples :
  parseInt "6" = Finite false 6 /\
  parseInt "invalid" = NaN /\
  parseInt "" = NaN /\
  parseInt "12px" = Finite false 12 /\
  parseInt "  -0x1F" = Finite true 31 /\
  parseInt "-0" = Finite true 0 /\
  parseInt "9007199254740993" = Finite false 9007199254740992.
Proof. repeat split. Qed.

Example Number_toString_examples :
  Number_toString (Finite false 6) = "6" /\
  Number_toString (Finite true 0) = "0" /\
  Number_toString (parseInt "18446744073709551616") = "18446744073709552000" /\
  Number_toString (parseInt "1180591620717411303424") = "1.1805916207174113e+21" /\
  Number_toString (parseInt "100000000000000000000000") = "1e+23".
Proof. repeat split; vm_compute; reflexivity. Qed.

(** The end-to-end example of the specification: a first request for user
    111 finds the bucket empty, calls upstream, answers with the payload
    and leaves it under 111.json; a second one is answered from the bucket
    with the same body and no upstream call. *)
Example end_to_end :
  let request := GET [("userid", "111"); ("max_results", "3")] in
  let w0 := world_at 0 ∅ upstream_ok in
  let w1 := Mock.world_after request bindings w0 in
  fst (Mock.serve request bindings w0) = respond empty_payload None /\
  length (upstream_calls (snd (Mock.serve request bindings w0))) = 1 /\
  R2Object.body <$> Mock.get (Mock.storage w1) "111.json"
    = Some (JSON_stringify empty_payload) /\
  body (fst (Mock.serve request bindings w1)) = JSON_stringify empty_payload /\
  status (fst (Mock.serve request bindings w1)) = 200%N /\
  upstream_calls (snd (Mock.serve request bindings w1)) = [].
Proof. repeat split; vm_compute; reflexivity. Qed.

Lemma method_is_not_GET (request : Request) :
  method request <> "GET" -> negb (String.eqb (method request) "GET") = true.
Proof.
  intros Hm. destruct (String.eqb_spec (method request) "GET") as [Heq | Hne].
  - contradiction.
  - reflexivity.
Qed.


(* ===================================================================== *)
(** * The method gate *)
(* ===================================================================== *)

(** C5. A request whose method is not GET is answered 405 with the header
    [Allow: GET], and the handler touches neither the bucket nor the
    upstream API. *)
Theorem method_gate (request : Request) (env : Env) (t : trace) (response : Response) :
  method request <> "GET" ->
  exec (fetch request env) t response ->
  status response = 405%N /\
  Headers_get "Allow" (headers response) = Some "GET" /\
  store_reads t = [] /\ store_writes t = [] /\ upstream_calls t = [].
Proof.
  intros Hm Hexec. unfold fetch in Hexec.
  rewrite (method_is_not_GET _ Hm) in Hexec.
  repeat exec_step Hexec. repeat split.
Qed.

Lemma method_gate_witness :
  method (POST []) <> "GET" /\
  status (fst (Mock.serve (POST []) bindings (world_at 0 ∅ upstream_ok))) = 405%N /\
  Headers_get "Allow" (headers (fst (Mock.serve (POST []) bindings (world_at 0 ∅ upstream_ok))))
    = Some "GET" /\
  store_reads (snd (Mock.serve (POST []) bindings (world_at 0 ∅ upstream_ok))) = [] /\
  store_writes (snd (Mock.serve (POST []) bindings (world_at 0 ∅ upstream_ok))) = [] /\
  upstream_calls (snd (Mock.serve (POST []) bindings (world_at 0 ∅ upstream_ok))) = [].
Proof.
  assert (Hm : method (POST []) <> "GET") by discriminate.
  split; [exact Hm |].
  exact (method_gate _ _ _ _ Hm (serve_exec (POST []) bindings (world_at 0 ∅ upstream_ok))).
Defined.

(* ===================================================================== *)
(** * Freshness *)
(* ===================================================================== *)

(** C9. An object whose upload time lies in the future of the clock is
    fresh: it is served from the cache and no upstream call is made. *)
Theorem future_timestamp_is_fresh
    (request : Request) (env : Env) (t : trace) (response : Response)
    (key : string) (object : R2Object.t) (now : Z) :
  method request = "GET" ->
  exec (fetch request env) t response ->
  store_reads t = [(key, Normal (Some object))] ->
  clock_reads t = [now] ->
  (now < R2Object.uploaded object)%Z ->
  upstream_calls t = [] /\ store_writes t = [] /\ response = cached_response object.
Proof.
  intros Hm Hexec Hread Hclock Hfuture.
  fetch_paths Hm Hexec; try discriminate Hread.
  all: injection Hread as _ ->; injection Hclock as ->.
  all: try (apply Z.ltb_lt in Heqb; lia).
  repeat split.
Qed.

Lemma future_timestamp_is_fresh_witness :
  method (GET []) = "GET" /\
  store_reads (snd (Mock.serve (GET []) bindings (world_at 0 (bucket_uploaded_at 60000) upstream_ok)))
    = [(default_key, Normal (Some (object_uploaded_at 60000)))] /\
  clock_reads (snd (Mock.serve (GET []) bindings (world_at 0 (bucket_uploaded_at 60000) upstream_ok)))
    = [0%Z] /\
  (0 < R2Object.uploaded (object_uploaded_at 60000))%Z /\
  upstream_calls (snd (Mock.serve (GET []) bindings
                         (world_at 0 (bucket_uploaded_at 60000) upstream_ok))) = [] /\
  fst (Mock.serve (GET []) bindings (world_at 0 (bucket_uploaded_at 60000) upstream_ok))
    = cached_response (object_uploaded_at 60000).
Proof.
  assert (Hm : method (GET []) = "GET") by reflexivity.
  assert (Hread : store_reads (snd (Mock.serve (GET []) bindings
                                      (world_at 0 (bucket_uploaded_at 60000) upstream_ok)))
                  = [(default_key, Normal (Some (object_uploaded_at 60000)))])
    by (vm_compute; reflexivity).
  assert (Hclock : clock_reads (snd (Mock.serve (GET []) bindings
                                       (world_at 0 (bucket_uploaded_at 60000) upstream_ok)))
                   = [0%Z])
    by (vm_compute; reflexivity).
  assert (Hfuture : (0 < R2Object.uploaded (object_uploaded_at 60000))%Z) by reflexivity.
  repeat (split; [assumption |]).
  destruct (future_timestamp_is_fresh _ _ _ _ _ _ _ Hm (serve_exec _ _ _) Hread Hclock Hfuture)
    as (Hcalls & _ & Hresponse).
  split; assumption.
Defined.

(** C2 (as amended). When the bucket holds an object for the key, it is
    served from the cache, with no upstream call, exactly when
    [now - uploaded <= 901 s], and the upstream API is called exactly when
    [now - uploaded > 901 s] (times in milliseconds). *)
Theorem freshness_boundary
    (request : Request) (env : Env) (t : trace) (response : Response)
    (key : string) (object : R2Object.t) (now : Z) :
  method request = "GET" ->
  exec (fetch request env) t response ->
  store_reads t = [(key, Normal (Some object))] ->
  clock_reads t = [now] ->
  ((upstream_calls t = [] /\ response = cached_response object) <->
   (now - R2Object.uploaded object <= FRESHNESS_WINDOW)%Z) /\
  ((exists call, upstream_calls t = [call]) <->
   (now - R2Object.uploaded object > FRESHNESS_WINDOW)%Z).
Proof.
  intros Hm Hexec Hread Hclock. unfold FRESHNESS_WINDOW.
  fetch_paths Hm Hexec; try discriminate Hread.
  all: injection Hread as _ ->; injection Hclock as ->.
  all: first [apply Z.ltb_lt in Heqb | apply Z.ltb_ge in Heqb].
  all: split; split.
  all: try (intros [Hcalls _]; discriminate Hcalls).
  all: try (intros [call Hcalls]; discriminate Hcalls).
  all: try (intros; lia).
  all: try (intros _; eexists; reflexivity).
  all: intros _; split; reflexivity.
Qed.

Lemma freshness_boundary_witness :
  method (GET []) = "GET" /\
  store_reads (snd (Mock.serve (GET []) bindings (world_at 901001 bucket_with_old_object upstream_ok)))
    = [(default_key, Normal (Some old_object))] /\
  clock_reads (snd (Mock.serve (GET []) bindings (world_at 901001 bucket_with_old_object upstream_ok)))
    = [901001%Z] /\
  ((exists call,
      upstream_calls (snd (Mock.serve (GET []) bindings
                             (world_at 901001 bucket_with_old_object upstream_ok))) = [call]) <->
   (901001 - R2Object.uploaded old_object > FRESHNESS_WINDOW)%Z).
Proof.
  assert (Hm : method (GET []) = "GET") by reflexivity.
  assert (Hread : store_reads (snd (Mock.serve (GET []) bindings
                                      (world_at 901001 bucket_with_old_object upstream_ok)))
                  = [(default_key, Normal (Some old_object))])
    by (vm_compute; reflexivity).
  assert (Hclock : clock_reads (snd (Mock.serve (GET []) bindings
                                       (world_at 901001 bucket_with_old_object upstream_ok)))
                   = [901001%Z])
    by (vm_compute; reflexivity).
  repeat (split; [assumption |]).
  exact (proj2 (freshness_boundary _ _ _ _ _ _ _ Hm (serve_exec _ _ _) Hread Hclock)).
Defined.

(** C2, as stated, fails at the boundary: an object uploaded exactly 901
    seconds before the request is served from the cache, with no upstream
    call. *)
Lemma entry_aged_901s_is_served_from_cache :
  store_reads (snd (Mock.serve (GET []) bindings (world_at 901000 bucket_with_old_object upstream_ok)))
    = [(default_key, Normal (Some old_object))] /\
  clock_reads (snd (Mock.serve (GET []) bindings (world_at 901000 bucket_with_old_object upstream_ok)))
    = [901000%Z] /\
  (901000 - R2Object.uploaded old_object >= 901 * 1000)%Z /\
  upstream_calls (snd (Mock.serve (GET []) bindings (world_at 901000 bucket_with_old_object upstream_ok)))
    = [] /\
  fst (Mock.serve (GET []) bindings (world_at 901000 bucket_with_old_object upstream_ok))
    = cached_response old_object.
Proof.
  repeat split; vm_compute; congruence.
Qed.

(* ===================================================================== *)
(** * Upstream failures *)
(* ===================================================================== *)

(** C3. When the upstream fetch fails - the call throws, the status is not
    a success, or the body does not parse - and the cache lookup had read an
    object, of whatever age, the response is that object's body, unchanged,
    with status 200; it is not an error response. *)
Theorem stale_fallback_on_upstream_failure
    (request : Request) (env : Env) (t : trace) (response : Response)
    (key : string) (object : R2Object.t)
    (input : string) (sent : HeadersInit) (outcome : Completion Upstream.t)
    (kind : failure) :
  method request = "GET" ->
  exec (fetch request env) t response ->
  store_reads t = [(key, Normal (Some object))] ->
  upstream_calls t = [(input, sent, outcome)] ->
  upstream_failure outcome = Some kind ->
  response = cached_response object /\
  status response = 200%N /\
  body response = R2Object.body object /\
  (forall text, response <> respond (error_body text) (Some 500%N)) /\
  store_writes t = [].
Proof.
  intros Hm Hexec Hread Hcall Hfail.
  fetch_paths Hm Hexec; try discriminate Hread; try discriminate Hcall.
  all: injection Hread as _ ->; injection Hcall as _ _ <-.
  all: cbn [upstream_failure] in Hfail;
       repeat match goal with
              | H : negb (Upstream.ok _) = _ |- _ => rewrite H in Hfail; clear H
              | H : Upstream.json _ = _ |- _ => rewrite H in Hfail; clear H
              end;
       try discriminate Hfail.
  all: repeat split.
  all: intros text Heq; apply (f_equal status) in Heq; discriminate Heq.
Qed.

Lemma stale_fallback_on_upstream_failure_witness :
  method (GET []) = "GET" /\
  store_reads (snd (Mock.serve (GET []) bindings (stale_world upstream_rate_limited)))
    = [(default_key, Normal (Some old_object))] /\
  upstream_calls (snd (Mock.serve (GET []) bindings (stale_world upstream_rate_limited)))
    = [default_call (upstream_rate_limited "" [])] /\
  upstream_failure (upstream_rate_limited "" []) = Some NonSuccessStatus /\
  fst (Mock.serve (GET []) bindings (stale_world upstream_rate_limited))
    = cached_response old_object.
Proof.
  assert (Hm : method (GET []) = "GET") by reflexivity.
  assert (Hread : store_reads (snd (Mock.serve (GET []) bindings (stale_world upstream_rate_limited)))
                  = [(default_key, Normal (Some old_object))])
    by (vm_compute; reflexivity).
  assert (Hcall : upstream_calls (snd (Mock.serve (GET []) bindings
                                         (stale_world upstream_rate_limited)))
                  = [default_call (upstream_rate_limited "" [])])
    by (vm_compute; reflexivity).
  assert (Hfail : upstream_failure (upstream_rate_limited "" []) = Some NonSuccessStatus)
    by reflexivity.
  repeat (split; [assumption |]).
  exact (proj1 (stale_fallback_on_upstream_failure _ _ _ _ _ _ _ _ _ _
                  Hm (serve_exec _ _ _) Hread Hcall Hfail)).
Defined.

(** C4 (as amended). When the upstream fetch fails and the bucket holds no
    object for the key, the response has status 500 and a JSON body with
    the one property [error]: "Failed to fetch data and no cache available"
    after a network error or a non-success status, "Failed to parse response
    and no cache available" after a body that does not parse. *)
Theorem terminal_error
    (request : Request) (env : Env) (t : trace) (response : Response)
    (key : string) (input : string) (sent : HeadersInit)
    (outcome : Completion Upstream.t) (kind : failure) :
  method request = "GET" ->
  exec (fetch request env) t response ->
  store_reads t = [(key, Normal None)] ->
  upstream_calls t = [(input, sent, outcome)] ->
  upstream_failure outcome = Some kind ->
  response = respond (error_body (terminal_message kind)) (Some 500%N) /\
  status response = 500%N /\
  body response = JSON_stringify (error_body (terminal_message kind)) /\
  store_writes t = [].
Proof.
  intros Hm Hexec Hread Hcall Hfail.
  fetch_paths Hm Hexec; try discriminate Hread; try discriminate Hcall.
  all: injection Hcall as _ _ <-.
  all: cbn [upstream_failure] in Hfail;
       repeat match goal with
              | H : negb (Upstream.ok _) = _ |- _ => rewrite H in Hfail; clear H
              | H : Upstream.json _ = _ |- _ => rewrite H in Hfail; clear H
              end;
       try discriminate Hfail.
  all: injection Hfail as <-.
  all: repeat split.
Qed.

Lemma terminal_error_witness :
  method (GET []) = "GET" /\
  store_reads (snd (Mock.serve (GET []) bindings (world_at 0 ∅ upstream_unreachable)))
    = [(default_key, Normal None)] /\
  upstream_calls (snd (Mock.serve (GET []) bindings (world_at 0 ∅ upstream_unreachable)))
    = [default_call (upstream_unreachable "" [])] /\
  upstream_failure (upstream_unreachable "" []) = Some NetworkError /\
  fst (Mock.serve (GET []) bindings (world_at 0 ∅ upstream_unreachable))
    = respond (error_body "Failed to fetch data and no cache available") (Some 500%N).
Proof.
  assert (Hm : method (GET []) = "GET") by reflexivity.
  assert (Hread : store_reads (snd (Mock.serve (GET []) bindings (world_at 0 ∅ upstream_unreachable)))
                  = [(default_key, Normal None)])
    by (vm_compute; reflexivity).
  assert (Hcall : upstream_calls (snd (Mock.serve (GET []) bindings
                                         (world_at 0 ∅ upstream_unreachable)))
                  = [default_call (upstream_unreachable "" [])])
    by (vm_compute; reflexivity).
  assert (Hfail : upstream_failure (upstream_unreachable "" []) = Some NetworkError)
    by reflexivity.
  repeat (split; [assumption |]).
  exact (proj1 (terminal_error _ _ _ _ _ _ _ _ _ Hm (serve_exec _ _ _) Hread Hcall Hfail)).
Defined.

(** C4, as stated, fails for a body that does not parse: with nothing
    cached the response is a 500 whose message is not the one of the
    claim. *)
Lemma unparsable_body_has_its_own_message :
  store_reads (snd (Mock.serve (GET []) bindings (world_at 0 ∅ upstream_garbled)))
    = [(default_key, Normal None)] /\
  upstream_calls (snd (Mock.serve (GET []) bindings (world_at 0 ∅ upstream_garbled)))
    = [default_call (upstream_garbled "" [])] /\
  upstream_failure (upstream_garbled "" []) = Some UnparsableBody /\
  status (fst (Mock.serve (GET []) bindings (world_at 0 ∅ upstream_garbled))) = 500%N /\
  body (fst (Mock.serve (GET []) bindings (world_at 0 ∅ upstream_garbled)))
    = JSON_stringify (error_body "Failed to parse response and no cache available") /\
  body (fst (Mock.serve (GET []) bindings (world_at 0 ∅ upstream_garbled)))
    <> JSON_stringify (error_body "Failed to fetch data and no cache available").
Proof.
  repeat split; vm_compute; congruence.
Qed.

(* ===================================================================== *)
(** * Faults of the bucket *)
(* ===================================================================== *)

(** C6. A store read that throws does not abort the request, and the
    handler goes on as after a read that found nothing: the upstream API is
    called, and a response with given upstream calls and store writes can
    come out of a throwing read exactly when it can come out of a read that
    found no object. *)
Theorem store_read_failure_is_a_miss
    (request : Request) (env : Env) (response : Response) (key : string) (e : Error)
    (calls : list (string * HeadersInit * Completion Upstream.t))
    (writes : list (string * string * list (string * string) * Completion unit)) :
  method request = "GET" ->
  ((exists t, exec (fetch request env) t response /\
              store_reads t = [(key, Throw e)] /\
              upstream_calls t = calls /\ store_writes t = writes) <->
   (exists t, exec (fetch request env) t response /\
              store_reads t = [(key, Normal None)] /\
              upstream_calls t = calls /\ store_writes t = writes)) /\
  (forall t, exec (fetch request env) t response ->
             store_reads t = [(key, Throw e)] ->
             clock_reads t = [] /\ exists call, upstream_calls t = [call]).
Proof.
  intros Hm. split; [split |].
  - (* a throwing read, replayed as a read that finds nothing *)
    intros (t & Hexec & Hread & Hcalls & Hwrites).
    unfold fetch in Hexec. rewrite Hm in Hexec.
    change (negb (String.eqb "GET" "GET")) with false in Hexec.
    exec_call Hexec a t1. exec_call Hexec got t2. read_trace.
    injection Hread as Hkey -> Hrest. subst key.
    exec_call Hexec logged t3. read_trace.
    exists (IO (ConsoleLog [LogString ("Using cache key: " +:+ cacheKey (userid (url request)))]) a
            :: IO (BucketGet (cacheKey (userid (url request)))) (Normal None) :: t3).
    split; [| read_trace; rewrite Hrest; repeat split; assumption].
    unfold fetch. rewrite Hm.
    change (negb (String.eqb "GET" "GET")) with false.
    cbn [exec bind call console_log].
    eexists _, _. split; [reflexivity |].
    eexists _, _. split; [reflexivity |].
    exact Hexec.
  - (* and the other way round, with any thrown value *)
    intros (t & Hexec & Hread & Hcalls & Hwrites).
    unfold fetch in Hexec. rewrite Hm in Hexec.
    change (negb (String.eqb "GET" "GET")) with false in Hexec.
    exec_call Hexec a t1. exec_call Hexec got t2. read_trace.
    injection Hread as Hkey -> Hrest. subst key.
    exists (IO (ConsoleLog [LogString ("Using cache key: " +:+ cacheKey (userid (url request)))]) a
            :: IO (BucketGet (cacheKey (userid (url request)))) (Throw e)
            :: IO (ConsoleLog [LogString "Error reading from R2 cache:"; LogError e]) tt
            :: t2).
    split; [| read_trace; rewrite Hrest; repeat split; assumption].
    unfold fetch. rewrite Hm.
    change (negb (String.eqb "GET" "GET")) with false.
    cbn [exec bind call console_log].
    eexists _, _. split; [reflexivity |].
    eexists _, _. split; [reflexivity |].
    cbn [exec bind call console_log].
    eexists _, _. split; [reflexivity |].
    exact Hexec.
  - intros t Hexec Hread.
    fetch_paths Hm Hexec; try discriminate Hread.
    all: split; [reflexivity | eexists; reflexivity].
Qed.

Lemma store_read_failure_is_a_miss_witness :
  method (GET []) = "GET" /\
  store_reads (snd (Mock.serve (GET []) bindings
                      (with_get_rejecting (new_Error "R2 read failure")
                         (world_at 0 bucket_with_old_object upstream_ok))))
    = [(default_key, Throw (new_Error "R2 read failure"))] /\
  exists t,
    exec (fetch (GET []) bindings) t (respond empty_payload None) /\
    store_reads t = [(default_key, Normal None)] /\
    upstream_calls t = [default_call (upstream_ok "" [])] /\
    store_writes t =
      [(default_key, JSON_stringify empty_payload,
        [("Content-Type", "application/json"); ("userid", "1472197491844026370")],
        Normal tt)].
Proof.
  assert (Hm : method (GET []) = "GET") by reflexivity.
  split; [exact Hm |].
  split; [vm_compute; reflexivity |].
  apply (proj1 (store_read_failure_is_a_miss (GET []) bindings (respond empty_payload None)
                  default_key (new_Error "R2 read failure") _ _ Hm)).
  exists (snd (Mock.serve (GET []) bindings
                 (with_get_rejecting (new_Error "R2 read failure")
                    (world_at 0 bucket_with_old_object upstream_ok)))).
  split; [exact (serve_exec _ _ _) |].
  repeat split; vm_compute; reflexivity.
Defined.

(** C7. When the upstream fetch succeeds with a body that parses, the
    response is the 200 JSON response made of the fetched data.  The write
    to the bucket is attempted, and however it completes - the response
    does not depend on it. *)
Theorem store_write_outcome_does_not_change_response
    (request : Request) (env : Env) (t : trace) (response : Response)
    (input : string) (sent : HeadersInit) (upstream : Upstream.t) (data : JsValue) :
  method request = "GET" ->
  exec (fetch request env) t response ->
  upstream_calls t = [(input, sent, Normal upstream)] ->
  Upstream.ok upstream = true ->
  Upstream.json upstream = Normal data ->
  response = respond data None /\
  status response = 200%N /\
  body response = JSON_stringify data /\
  Headers_get "content-type" (headers response) = Some "application/json" /\
  exists written : Completion unit,
    store_writes t =
      [(cacheKey (userid (url request)), JSON_stringify data,
        [("Content-Type", "application/json"); ("userid", userid (url request))],
        written)].
Proof.
  intros Hm Hexec Hcall Hok Hjson.
  fetch_paths Hm Hexec; try discriminate Hcall.
  all: injection Hcall as _ _ <-.
  all: try (rewrite Hok in *; discriminate).
  all: try (rewrite Hjson in *; discriminate).
  all: match goal with H : Upstream.json _ = Normal ?d |- _ =>
         rewrite Hjson in H; injection H as <-
       end.
  all: repeat split; eexists; reflexivity.
Qed.

Lemma store_write_outcome_does_not_change_response_witness :
  method (GET []) = "GET" /\
  upstream_calls (snd (Mock.serve (GET []) bindings
                         (with_put_rejecting (new_Error "R2 write failure")
                            (world_at 0 ∅ upstream_ok))))
    = [default_call (Normal {| Upstream.status := 200; Upstream.statusText := "OK";
                               Upstream.json := Normal empty_payload |})] /\
  (snd <$> store_writes (snd (Mock.serve (GET []) bindings
                         (with_put_rejecting (new_Error "R2 write failure")
                            (world_at 0 ∅ upstream_ok)))))
    = [Throw (new_Error "R2 write failure")] /\
  fst (Mock.serve (GET []) bindings
         (with_put_rejecting (new_Error "R2 write failure") (world_at 0 ∅ upstream_ok)))
    = respond empty_payload None.
Proof.
  assert (Hm : method (GET []) = "GET") by reflexivity.
  assert (Hcall : upstream_calls (snd (Mock.serve (GET []) bindings
                         (with_put_rejecting (new_Error "R2 write failure")
                            (world_at 0 ∅ upstream_ok))))
    = [default_call (Normal {| Upstream.status := 200; Upstream.statusText := "OK";
                               Upstream.json := Normal empty_payload |})])
    by (vm_compute; reflexivity).
  split; [exact Hm |]. split; [exact Hcall |]. split; [vm_compute; reflexivity |].
  exact (proj1 (store_write_outcome_does_not_change_response _ _ _ _ _ _ _ _
                  Hm (serve_exec _ _ _) Hcall eq_refl eq_refl)).
Defined.

(* ===================================================================== *)
(** * Parameters and the cache key *)
(* ===================================================================== *)

Lemma length_append (a b : string) :
  String.length (a +:+ b) = String.length a + String.length b.
Proof.
  induction a as [| c a IH].
  - reflexivity.
  - change (String c a +:+ b) with (String c (a +:+ b)).
    cbn [String.length]. rewrite IH. reflexivity.
Qed.

(** Appending a suffix loses nothing of the string it is appended to. *)
Lemma append_cancel_r (suffix a b : string) :
  a +:+ suffix = b +:+ suffix -> a = b.
Proof.
  revert b. induction a as [| c a IH]; intros [| d b] Heq.
  - reflexivity.
  - apply (f_equal String.length) in Heq.
    rewrite !length_append in Heq. cbn [String.length] in Heq. lia.
  - apply (f_equal String.length) in Heq.
    rewrite !length_append in Heq. cbn [String.length] in Heq. lia.
  - change (String c (a +:+ suffix) = String d (b +:+ suffix)) in Heq.
    injection Heq as -> Heq.
    f_equal. apply IH. exact Heq.
Qed.

Lemma cacheKey_inj (a b : string) : cacheKey a = cacheKey b -> a = b.
Proof. unfold cacheKey. apply append_cancel_r. Qed.

(** The handler reads the bucket once, under the key derived from the
    subject identifier, and writes under no other key. *)
Lemma fetch_store_keys (request : Request) (env : Env) (t : trace) (response : Response) :
  method request = "GET" ->
  exec (fetch request env) t response ->
  (exists got, store_reads t = [(cacheKey (userid (url request)), got)]) /\
  Forall (eq (cacheKey (userid (url request)))) (store_keys t).
Proof.
  intros Hm Hexec.
  fetch_paths Hm Hexec.
  all: split; [eexists; reflexivity | repeat constructor].
Qed.

(** The one upstream call, when there is one, carries the subject
    identifier and the size limit. *)
Lemma fetch_upstream_input (request : Request) (env : Env) (t : trace) (response : Response) :
  method request = "GET" ->
  exec (fetch request env) t response ->
  Forall (fun call => fst (fst call) = twitterUrl (userid (url request)) (max_results (url request)))
         (upstream_calls t).
Proof.
  intros Hm Hexec.
  fetch_paths Hm Hexec.
  all: repeat constructor.
Qed.

(** The handler reads the request through its method, its subject
    identifier and its size limit only. *)
Lemma fetch_ext (r1 r2 : Request) (env : Env) :
  method r1 = method r2 ->
  userid (url r1) = userid (url r2) ->
  max_results (url r1) = max_results (url r2) ->
  fetch r1 env = fetch r2 env.
Proof.
  intros Hm Hu Hx. unfold fetch. cbv zeta. rewrite Hm, Hu, Hx. reflexivity.
Qed.

(** Key isolation in the bucket of the test-suite: what is written for one
    subject identifier is not what is read for another. *)
Lemma put_does_not_reach_other_subjects
    (storage : Mock.MockR2Bucket) (a b value : string)
    (metadata : list (string * string)) (now : Z) :
  a <> b ->
  Mock.get (Mock.put storage (cacheKey a) value metadata now) (cacheKey b)
    = Mock.get storage (cacheKey b).
Proof.
  intros Hne. unfold Mock.get, Mock.put.
  apply lookup_insert_ne. intros Heq. apply Hne, cacheKey_inj, Heq.
Qed.

(** C1. The cache key is the subject identifier followed by [.json], and
    nothing else of the request enters it: the bucket is read under that
    key and written under no other; two requests with the same subject
    identifier use the same key whatever their [max_results], and two
    requests with distinct subject identifiers use distinct keys. *)
Theorem cache_key_derivation
    (r1 r2 : Request) (env1 env2 : Env) (t1 t2 : trace) (response1 response2 : Response) :
  method r1 = "GET" ->
  method r2 = "GET" ->
  exec (fetch r1 env1) t1 response1 ->
  exec (fetch r2 env2) t2 response2 ->
  (exists got, store_reads t1 = [(userid (url r1) +:+ ".json", got)]) /\
  Forall (eq (userid (url r1) +:+ ".json")) (store_keys t1) /\
  (userid (url r1) = userid (url r2) ->
   forall k1 k2, k1 ∈ store_keys t1 -> k2 ∈ store_keys t2 -> k1 = k2) /\
  (userid (url r1) <> userid (url r2) ->
   forall k1 k2, k1 ∈ store_keys t1 -> k2 ∈ store_keys t2 -> k1 <> k2).
Proof.
  intros Hm1 Hm2 Hexec1 Hexec2.
  destruct (fetch_store_keys r1 env1 t1 response1 Hm1 Hexec1) as [Hread1 Hkeys1].
  destruct (fetch_store_keys r2 env2 t2 response2 Hm2 Hexec2) as [_ Hkeys2].
  rewrite Forall_forall in Hkeys1, Hkeys2.
  split; [exact Hread1 |].
  split; [rewrite Forall_forall; exact Hkeys1 |].
  split.
  - intros Hsame k1 k2 Hk1 Hk2.
    rewrite <- (Hkeys1 k1 Hk1), <- (Hkeys2 k2 Hk2), Hsame. reflexivity.
  - intros Hdistinct k1 k2 Hk1 Hk2 Heq.
    rewrite <- (Hkeys1 k1 Hk1), <- (Hkeys2 k2 Hk2) in Heq.
    apply Hdistinct, cacheKey_inj, Heq.
Qed.

Lemma cache_key_derivation_witness :
  method (GET [("userid", "111"); ("max_results", "3")]) = "GET" /\
  method (GET [("userid", "222"); ("max_results", "3")]) = "GET" /\
  userid (url (GET [("userid", "111"); ("max_results", "3")]))
    <> userid (url (GET [("userid", "222"); ("max_results", "3")])) /\
  store_keys (snd (Mock.serve (GET [("userid", "111"); ("max_results", "3")]) bindings
                     (world_at 0 ∅ upstream_ok))) = ["111.json"; "111.json"] /\
  store_keys (snd (Mock.serve (GET [("userid", "222"); ("max_results", "3")]) bindings
                     (world_at 0 ∅ upstream_ok))) = ["222.json"; "222.json"] /\
  forall k1 k2,
    k1 ∈ store_keys (snd (Mock.serve (GET [("userid", "111"); ("max_results", "3")]) bindings
                            (world_at 0 ∅ upstream_ok))) ->
    k2 ∈ store_keys (snd (Mock.serve (GET [("userid", "222"); ("max_results", "3")]) bindings
                            (world_at 0 ∅ upstream_ok))) ->
    k1 <> k2.
Proof.
  assert (Hm1 : method (GET [("userid", "111"); ("max_results", "3")]) = "GET") by reflexivity.
  assert (Hm2 : method (GET [("userid", "222"); ("max_results", "3")]) = "GET") by reflexivity.
  assert (Hdistinct : userid (url (GET [("userid", "111"); ("max_results", "3")]))
                      <> userid (url (GET [("userid", "222"); ("max_results", "3")])))
    by (vm_compute; discriminate).
  split; [exact Hm1 |]. split; [exact Hm2 |]. split; [exact Hdistinct |].
  split; [vm_compute; reflexivity |]. split; [vm_compute; reflexivity |].
  exact (proj2 (proj2 (proj2 (cache_key_derivation _ _ _ _ _ _ _ _ Hm1 Hm2
                                (serve_exec _ _ _) (serve_exec _ _ _)))) Hdistinct).
Defined.

(** C8. A GET request without [userid] is served for the subject
    identifier 1472197491844026370, and the bucket is read and written
    under the key 1472197491844026370.json; a GET request whose
    [max_results] is absent, or present and not parsed by [parseInt], has
    the size limit 6, which is what the upstream call carries. *)
Theorem default_parameters
    (request : Request) (env : Env) (t : trace) (response : Response) :
  method request = "GET" ->
  exec (fetch request env) t response ->
  (URLSearchParams_get (searchParams (url request)) "userid" = None ->
   userid (url request) = "1472197491844026370" /\
   (exists got, store_reads t = [("1472197491844026370.json", got)]) /\
   Forall (eq "1472197491844026370.json") (store_keys t)) /\
  (URLSearchParams_get (searchParams (url request)) "max_results" = None \/
   (exists s, URLSearchParams_get (searchParams (url request)) "max_results" = Some s /\
              parseInt s = NaN) ->
   max_results (url request) = Finite false 6 /\
   Forall (fun call => fst (fst call) = twitterUrl (userid (url request)) (Finite false 6))
          (upstream_calls t)).
Proof.
  intros Hm Hexec.
  destruct (fetch_store_keys request env t response Hm Hexec) as [Hread Hkeys].
  pose proof (fetch_upstream_input request env t response Hm Hexec) as Hinput.
  split.
  - intros Habsent.
    assert (Hu : userid (url request) = "1472197491844026370")
      by (unfold userid; rewrite Habsent; reflexivity).
    rewrite Hu in Hread, Hkeys. repeat split; assumption.
  - intros Hlimit.
    assert (Hx : max_results (url request) = Finite false 6).
    { unfold max_results, max_results_param.
      destruct Hlimit as [-> | (s & -> & Hnan)]; [reflexivity |].
      destruct s as [| c s]; [reflexivity |].
      cbn [string_or]. rewrite Hnan. reflexivity. }
    rewrite Hx in Hinput. split; assumption.
Qed.

Lemma default_parameters_witness :
  method (GET [("max_results", "invalid")]) = "GET" /\
  URLSearchParams_get (searchParams (url (GET [("max_results", "invalid")]))) "userid" = None /\
  parseInt "invalid" = NaN /\
  store_keys (snd (Mock.serve (GET [("max_results", "invalid")]) bindings
                     (world_at 0 ∅ upstream_ok)))
    = ["1472197491844026370.json"; "1472197491844026370.json"] /\
  Forall (eq "1472197491844026370.json")
         (store_keys (snd (Mock.serve (GET [("max_results", "invalid")]) bindings
                             (world_at 0 ∅ upstream_ok)))) /\
  max_results (url (GET [("max_results", "invalid")])) = Finite false 6.
Proof.
  assert (Hm : method (GET [("max_results", "invalid")]) = "GET") by reflexivity.
  assert (Habsent : URLSearchParams_get (searchParams (url (GET [("max_results", "invalid")])))
                      "userid" = None) by reflexivity.
  assert (Hnan : parseInt "invalid" = NaN) by reflexivity.
  split; [exact Hm |]. split; [exact Habsent |]. split; [exact Hnan |].
  split; [vm_compute; reflexivity |].
  destruct (default_parameters _ bindings _ _ Hm
              (serve_exec (GET [("max_results", "invalid")]) bindings (world_at 0 ∅ upstream_ok)))
    as [Hid Hlimit].
  split.
  - exact (proj2 (proj2 (Hid Habsent))).
  - exact (proj1 (Hlimit (or_intror (ex_intro _ "invalid" (conj eq_refl Hnan))))).
Defined.

(** C10. The fall-backs are taken on falsy values: a [max_results] that
    [parseInt] turns into 0 or NaN gives the same handler as
    [max_results=6], and an empty [userid] gives the same handler as no
    [userid], for the default subject identifier and its key. *)
Theorem falsy_parameters_fall_back (r1 r2 : Request) (env : Env) :
  method r1 = method r2 ->
  (URLSearchParams_get (searchParams (url r1)) "userid"
     = URLSearchParams_get (searchParams (url r2)) "userid" ->
   (exists s, URLSearchParams_get (searchParams (url r1)) "max_results" = Some s /\
              (parseInt s = NaN \/ exists negative, parseInt s = Finite negative 0)) ->
   URLSearchParams_get (searchParams (url r2)) "max_results" = Some "6" ->
   max_results (url r1) = Finite false 6 /\
   fetch r1 env = fetch r2 env) /\
  (URLSearchParams_get (searchParams (url r1)) "max_results"
     = URLSearchParams_get (searchParams (url r2)) "max_results" ->
   URLSearchParams_get (searchParams (url r1)) "userid" = Some "" ->
   URLSearchParams_get (searchParams (url r2)) "userid" = None ->
   userid (url r1) = "1472197491844026370" /\
   cacheKey (userid (url r1)) = "1472197491844026370.json" /\
   fetch r1 env = fetch r2 env).
Proof.
  intros Hm. split.
  - intros Hid (s & Hs & Hfalsy) Hsix.
    assert (Hx1 : max_results (url r1) = Finite false 6).
    { unfold max_results, max_results_param. rewrite Hs.
      destruct s as [| c s]; [reflexivity |].
      cbn [string_or].
      destruct Hfalsy as [-> | [negative ->]]; reflexivity. }
    assert (Hx2 : max_results (url r2) = Finite false 6)
      by (unfold max_results, max_results_param; rewrite Hsix; reflexivity).
    split; [exact Hx1 |].
    apply fetch_ext; [exact Hm | unfold userid; rewrite Hid; reflexivity | congruence].
  - intros Hlimit Hempty Habsent.
    assert (Hu1 : userid (url r1) = "1472197491844026370")
      by (unfold userid; rewrite Hempty; reflexivity).
    assert (Hu2 : userid (url r2) = "1472197491844026370")
      by (unfold userid; rewrite Habsent; reflexivity).
    split; [exact Hu1 |]. split; [rewrite Hu1; reflexivity |].
    apply fetch_ext; [exact Hm | congruence |].
    unfold max_results, max_results_param. rewrite Hlimit. reflexivity.
Qed.

Lemma falsy_parameters_fall_back_witness :
  method (GET [("userid", "111"); ("max_results", "0")])
    = method (GET [("userid", "111"); ("max_results", "6")]) /\
  parseInt "0" = Finite false 0 /\
  fetch (GET [("userid", "111"); ("max_results", "0")]) bindings
    = fetch (GET [("userid", "111"); ("max_results", "6")]) bindings /\
  fetch (GET [("userid", ""); ("max_results", "3")]) bindings
    = fetch (GET [("max_results", "3")]) bindings.
Proof.
  split; [reflexivity |]. split; [reflexivity |]. split.
  - exact (proj2 (proj1 (falsy_parameters_fall_back
                           (GET [("userid", "111"); ("max_results", "0")])
                           (GET [("userid", "111"); ("max_results", "6")])
                           bindings eq_refl)
                    eq_refl
                    (ex_intro _ "0" (conj eq_refl (or_intror (ex_intro _ false eq_refl))))
                    eq_refl)).
  - exact (proj2 (proj2 (proj2 (falsy_parameters_fall_back
                                  (GET [("userid", ""); ("max_results", "3")])
                                  (GET [("max_results", "3")])
                                  bindings eq_refl)
                           eq_refl eq_refl eq_refl))).
Defined.

(* ===================================================================== *)
(** * The calls of one request *)
(* ===================================================================== *)

(** X1. A GET request reads the bucket first and once; it reads the clock
    only when the bucket gave an object, calls upstream at most once (there
    is no retry) and writes at most once, after the upstream call.  It
    writes exactly when the upstream call succeeded with a body that
    parses. *)
Theorem call_discipline
    (request : Request) (env : Env) (t : trace) (response : Response) :
  method request = "GET" ->
  exec (fetch request env) t response ->
  (call_kinds t = [Read; Clock] \/
   call_kinds t = [Read; CallUpstream] \/
   call_kinds t = [Read; CallUpstream; Write] \/
   call_kinds t = [Read; Clock; CallUpstream] \/
   call_kinds t = [Read; Clock; CallUpstream; Write]) /\
  (Write ∈ call_kinds t <->
   exists input sent outcome,
     upstream_calls t = [(input, sent, outcome)] /\ upstream_failure outcome = None) /\
  (Clock ∈ call_kinds t <->
   exists key object, store_reads t = [(key, Normal (Some object))]).
Proof.
  intros Hm Hexec.
  fetch_paths Hm Hexec; cbn [call_kinds flat_map call_kind_of app].
  all: split; [tauto |].
  all: split; split.
  all: try (intros Hin; repeat (apply elem_of_cons in Hin as [Hin | Hin]; [discriminate Hin |]);
            apply elem_of_nil in Hin; contradiction).
  all: try (intros (input & sent & outcome & Hcalls & Hfail); try discriminate Hcalls;
            injection Hcalls as _ _ <-; cbn [upstream_failure] in Hfail;
            repeat match goal with
                   | H : negb (Upstream.ok _) = _ |- _ => rewrite H in Hfail; clear H
                   | H : Upstream.json _ = _ |- _ => rewrite H in Hfail; clear H
                   end;
            discriminate Hfail).
  all: try (intros (key & object & Hread); discriminate Hread).
  all: try (intros _; repeat constructor; fail).
  all: try (intros _; eexists _, _; reflexivity).
  all: intros _; eexists _, _, _; split; [reflexivity |]; cbn [upstream_failure];
       repeat match goal with
              | H : negb (Upstream.ok _) = _ |- _ => rewrite H; clear H
              | H : Upstream.json _ = _ |- _ => rewrite H; clear H
              end; reflexivity.
Qed.

Lemma call_discipline_witness :
  method (GET []) = "GET" /\
  call_kinds (snd (Mock.serve (GET []) bindings (stale_world upstream_ok)))
    = [Read; Clock; CallUpstream; Write] /\
  (Write ∈ call_kinds (snd (Mock.serve (GET []) bindings (stale_world upstream_ok))) <->
   exists input sent outcome,
     upstream_calls (snd (Mock.serve (GET []) bindings (stale_world upstream_ok)))
       = [(input, sent, outcome)] /\ upstream_failure outcome = None).
Proof.
  assert (Hm : method (GET []) = "GET") by reflexivity.
  split; [exact Hm |]. split; [vm_compute; reflexivity |].
  exact (proj1 (proj2 (call_discipline _ _ _ _ Hm
                         (serve_exec (GET []) bindings (stale_world upstream_ok))))).
Defined.

(** X2. Every response to a GET request carries the JSON content type and
    the three CORS headers, and its status is 200 or 500; it is 500 exactly
    when the upstream call failed while the handler held no object (the
    bucket had none, or the read threw). *)
Theorem response_classification
    (request : Request) (env : Env) (t : trace) (response : Response) :
  method request = "GET" ->
  exec (fetch request env) t response ->
  headers response = json_headers /\
  (status response = 200%N \/ status response = 500%N) /\
  (status response = 500%N <->
   exists key got input sent outcome kind,
     store_reads t = [(key, got)] /\ read_object got = None /\
     upstream_calls t = [(input, sent, outcome)] /\
     upstream_failure outcome = Some kind).
Proof.
  intros Hm Hexec.
  fetch_paths Hm Hexec.
  all: split; [reflexivity |].
  all: split; [cbn; tauto |].
  all: split.
  all: try (intros Hs; discriminate Hs).
  all: try (intros (key & got & input & sent & outcome & kind & Hread & Hnone & Hcalls & Hfail);
            try discriminate Hcalls;
            injection Hread as _ <-; try discriminate Hnone;
            injection Hcalls as _ _ <-; cbn [upstream_failure] in Hfail;
            repeat match goal with
                   | H : negb (Upstream.ok _) = _ |- _ => rewrite H in Hfail; clear H
                   | H : Upstream.json _ = _ |- _ => rewrite H in Hfail; clear H
                   end;
            discriminate Hfail).
  all: try (intros _; reflexivity).
  all: intros _; eexists _, _, _, _, _, _;
       split; [reflexivity |]; split; [reflexivity |]; split; [reflexivity |];
       cbn [upstream_failure];
       repeat match goal with
              | H : negb (Upstream.ok _) = _ |- _ => rewrite H; clear H
              | H : Upstream.json _ = _ |- _ => rewrite H; clear H
              end; reflexivity.
Qed.

Lemma response_classification_witness :
  method (GET []) = "GET" /\
  headers (fst (Mock.serve (GET []) bindings (world_at 0 ∅ upstream_rate_limited)))
    = json_headers /\
  status (fst (Mock.serve (GET []) bindings (world_at 0 ∅ upstream_rate_limited))) = 500%N.
Proof.
  assert (Hm : method (GET []) = "GET") by reflexivity.
  split; [exact Hm |].
  destruct (response_classification _ _ _ _ Hm
              (serve_exec (GET []) bindings (world_at 0 ∅ upstream_rate_limited)))
    as (Hheaders & _ & Hiff).
  split; [exact Hheaders |].
  apply Hiff.
  exists default_key, (Normal None),
         (twitterUrl "1472197491844026370" (Finite false 6)),
         [ ("content-type", "application/json;charset=UTF-8");
           ("Authorization", "Bearer test-bearer-token") ],
         (upstream_rate_limited "" []), NonSuccessStatus.
  repeat split; vm_compute; reflexivity.
Defined.

(** X3. The size limit is not validated: a [max_results] that [parseInt]
    turns into a number other than 0 and NaN - a negative one, a huge one,
    digits followed by other text - is the limit, and is what the upstream
    URL carries. *)
Theorem max_results_is_forwarded_unvalidated
    (request : Request) (env : Env) (t : trace) (response : Response) (s : string) :
  method request = "GET" ->
  exec (fetch request env) t response ->
  URLSearchParams_get (searchParams (url request)) "max_results" = Some s ->
  truthy (parseInt s) = true ->
  max_results (url request) = parseInt s /\
  Forall (fun call =>
            fst (fst call) =
            "https://api.twitter.com/2/users/" +:+ userid (url request) +:+
            "/tweets?max_results=" +:+ Number_toString (parseInt s) +:+
            "&tweet.fields=created_at,entities,public_metrics&expansions=author_id&user.fields=profile_image_url,username")
         (upstream_calls t).
Proof.
  intros Hm Hexec Hs Htruthy.
  assert (Hx : max_results (url request) = parseInt s).
  { unfold max_results, max_results_param. rewrite Hs.
    destruct s as [| c s]; [discriminate Htruthy |].
    cbn [string_or]. unfold number_or. rewrite Htruthy. reflexivity. }
  split; [exact Hx |].
  pose proof (fetch_upstream_input request env t response Hm Hexec) as Hinput.
  rewrite Hx in Hinput. exact Hinput.
Qed.

Lemma max_results_is_forwarded_unvalidated_witness :
  method (GET [("max_results", "-5 tweets")]) = "GET" /\
  truthy (parseInt "-5 tweets") = true /\
  max_results (url (GET [("max_results", "-5 tweets")])) = Finite true 5 /\
  (fun call => fst (fst call)) <$>
    upstream_calls (snd (Mock.serve (GET [("max_results", "-5 tweets")]) bindings
                           (world_at 0 ∅ upstream_ok)))
    = [ "https://api.twitter.com/2/users/1472197491844026370/tweets?max_results=-5&tweet.fields=created_at,entities,public_metrics&expansions=author_id&user.fields=profile_image_url,username" ].
Proof.
  assert (Hm : method (GET [("max_results", "-5 tweets")]) = "GET") by reflexivity.
  assert (Htruthy : truthy (parseInt "-5 tweets") = true) by reflexivity.
  split; [exact Hm |]. split; [exact Htruthy |].
  split; [| vm_compute; reflexivity].
  exact (proj1 (max_results_is_forwarded_unvalidated _ bindings _ _ "-5 tweets" Hm
                  (serve_exec (GET [("max_results", "-5 tweets")]) bindings
                     (world_at 0 ∅ upstream_ok))
                  eq_refl Htruthy)).
Defined.

(** X4. A missing [TWITTER_BEARER_TOKEN] binding does not stop the
    request: when the handler holds no object it still calls upstream, and
    the header it sends is [Authorization: Bearer undefined]. *)
Theorem missing_token_is_sent_as_undefined
    (request : Request) (env : Env) (t : trace) (response : Response)
    (key : string) (got : Completion (option R2Object.t)) :
  TWITTER_BEARER_TOKEN env = None ->
  method request = "GET" ->
  exec (fetch request env) t response ->
  store_reads t = [(key, got)] ->
  read_object got = None ->
  exists outcome,
    upstream_calls t =
      [(twitterUrl (userid (url request)) (max_results (url request)),
        [ ("content-type", "application/json;charset=UTF-8");
          ("Authorization", "Bearer undefined") ],
        outcome)].
Proof.
  intros Htoken Hm Hexec Hread Hnone.
  fetch_paths Hm Hexec.
  all: injection Hread as _ <-; try discriminate Hnone.
  all: rewrite Htoken; eexists; reflexivity.
Qed.

Lemma missing_token_is_sent_as_undefined_witness :
  TWITTER_BEARER_TOKEN {| TWITTER_BEARER_TOKEN := None |} = None /\
  method (GET []) = "GET" /\
  upstream_calls (snd (Mock.serve (GET []) {| TWITTER_BEARER_TOKEN := None |}
                         (world_at 0 ∅ upstream_unreachable)))
    = [(twitterUrl "1472197491844026370" (Finite false 6),
        [ ("content-type", "application/json;charset=UTF-8");
          ("Authorization", "Bearer undefined") ],
        Throw (new_Error "Network error"))].
Proof.
  assert (Hm : method (GET []) = "GET") by reflexivity.
  split; [reflexivity |]. split; [exact Hm |].
  destruct (missing_token_is_sent_as_undefined (GET []) {| TWITTER_BEARER_TOKEN := None |}
              _ _ default_key (Normal None) eq_refl Hm
              (serve_exec _ _ (world_at 0 ∅ upstream_unreachable)))
    as [outcome Hcalls].
  - vm_compute. reflexivity.
  - reflexivity.
  - rewrite Hcalls. vm_compute in Hcalls. injection Hcalls as <-. reflexivity.
Defined.

(* ===================================================================== *)
(** * The worker against the in-memory bucket *)
(* ===================================================================== *)

(** What a run in the mock world does to the world, and what the world
    answers: the clock, the mocked [fetch] and the injected rejections stay
    as they are, the bucket is the old one with the completed writes
    replayed, every write gets the answer of [put], and every upstream call
    the answer of the mocked [fetch]. *)
Lemma mock_run {R : Type} (p : prog R) :
  forall w : Mock.World,
    Mock.clock (snd (run Mock.env p w)) = Mock.clock w /\
    Mock.mockFetch (snd (run Mock.env p w)) = Mock.mockFetch w /\
    Mock.get_rejects (snd (run Mock.env p w)) = Mock.get_rejects w /\
    Mock.put_rejects (snd (run Mock.env p w)) = Mock.put_rejects w /\
    Mock.storage (snd (run Mock.env p w))
      = Mock.replay_writes (Mock.clock w) (store_writes (snd (fst (run Mock.env p w))))
          (Mock.storage w) /\
    Forall (fun write => snd write = Mock.put_answer w)
           (store_writes (snd (fst (run Mock.env p w)))) /\
    Forall (fun call => snd call = Mock.mockFetch w (fst (fst call)) (snd (fst call)))
           (upstream_calls (snd (fst (run Mock.env p w)))) /\
    Forall (eq (Mock.clock w)) (clock_reads (snd (fst (run Mock.env p w)))).
Proof.
  induction p as [r | o k IH]; intros w.
  - cbn. repeat split; constructor.
  - cbn [run].
    destruct o as [args | key | | input sent | key value metadata];
      cbn [respond_to Mock.env Mock.respond_to].
    + specialize (IH tt {| Mock.storage := Mock.storage w; Mock.clock := Mock.clock w;
                           Mock.mockFetch := Mock.mockFetch w;
                           Mock.get_rejects := Mock.get_rejects w;
                           Mock.put_rejects := Mock.put_rejects w;
                           Mock.console := Mock.console w ++ [args] |}).
      destruct (run Mock.env (k tt) _) as [[r t] w'].
      exact IH.
    + specialize (IH (match Mock.get_rejects w with
                      | Some e => Throw e
                      | None => Normal (Mock.get (Mock.storage w) key)
                      end) w).
      destruct (run Mock.env (k _) w) as [[r t] w'].
      exact IH.
    + specialize (IH (Mock.clock w) w).
      destruct (run Mock.env (k _) w) as [[r t] w'].
      cbn in *. destruct IH as (? & ? & ? & ? & ? & ? & ? & ?).
      repeat split; try assumption. constructor; [reflexivity | assumption].
    + specialize (IH (Mock.mockFetch w input sent) w).
      destruct (run Mock.env (k _) w) as [[r t] w'].
      cbn in *. destruct IH as (? & ? & ? & ? & ? & ? & ? & ?).
      repeat split; try assumption. constructor; [reflexivity | assumption].
    + unfold Mock.put_answer in *.
      destruct (Mock.put_rejects w) as [e |] eqn:Hput.
      * specialize (IH (Throw e) w).
        destruct (run Mock.env (k _) w) as [[r t] w'].
        cbn in *. rewrite Hput in IH.
        destruct IH as (? & ? & ? & ? & ? & ? & ? & ?).
        repeat split; try assumption. constructor; [reflexivity | assumption].
      * specialize (IH (Normal tt)
                       {| Mock.storage := Mock.put (Mock.storage w) key value metadata (Mock.clock w);
                          Mock.clock := Mock.clock w; Mock.mockFetch := Mock.mockFetch w;
                          Mock.get_rejects := Mock.get_rejects w;
                          Mock.put_rejects := None;
                          Mock.console := Mock.console w |}).
        destruct (run Mock.env (k _) _) as [[r t] w'].
        cbn in *.
        destruct IH as (? & ? & ? & ? & ? & ? & ? & ?).
        repeat split; try assumption. constructor; [reflexivity | assumption].
Qed.

(** The writes of one request: none, or one, of the fetched payload, under
    the derived key, when upstream answered with a body that parses. *)
Lemma fetch_writes (request : Request) (env : Env) (t : trace) (response : Response) :
  exec (fetch request env) t response ->
  store_writes t = [] \/
  exists input sent upstream data written,
    method request = "GET" /\
    upstream_calls t = [(input, sent, Normal upstream)] /\
    Upstream.ok upstream = true /\
    Upstream.json upstream = Normal data /\
    response = respond data None /\
    store_writes t =
      [(cacheKey (userid (url request)), JSON_stringify data,
        [("Content-Type", "application/json"); ("userid", userid (url request))],
        written)].
Proof.
  intros Hexec.
  destruct (String.eqb_spec (method request) "GET") as [Hm | Hm].
  - fetch_paths Hm Hexec.
    all: try (left; reflexivity).
    all: right; eexists _, _, _, _, _.
    all: split; [exact Hm |]; split; [reflexivity |].
    all: split; [apply negb_false_iff; assumption |].
    all: split; [eassumption |]; split; reflexivity.
  - unfold fetch in Hexec. rewrite (method_is_not_GET _ Hm) in Hexec.
    repeat exec_step Hexec. left. reflexivity.
Qed.

Lemma replay_writes_lookup_ne (now : Z) (k : string)
    (writes : list (string * string * list (string * string) * Completion unit)) :
  forall storage : Mock.MockR2Bucket,
    Forall (fun write => fst (fst (fst write)) <> k) writes ->
    Mock.get (Mock.replay_writes now writes storage) k = Mock.get storage k.
Proof.
  induction writes as [| [[[key value] metadata] written] writes IH]; intros storage Hall.
  - reflexivity.
  - apply Forall_cons in Hall as [Hne Hall]. cbn in Hne.
    unfold Mock.replay_writes. cbn [fold_left].
    change (Mock.get (Mock.replay_writes now writes
                        (Mock.replay_write now storage (key, value, metadata, written))) k
            = Mock.get storage k).
    rewrite (IH _ Hall). destruct written as [e | []]; cbn [Mock.replay_write].
    + reflexivity.
    + unfold Mock.get, Mock.put. apply lookup_insert_ne. exact Hne.
Qed.

(** A request served from the bucket of the test-suite, spelled out: with
    a working [get], an object under the key and an age within the window,
    the response is that object and the bucket and upstream are left
    alone. *)
Lemma serve_hit (request : Request) (bindings : Env) (w : Mock.World) (object : R2Object.t) :
  method request = "GET" ->
  Mock.get_rejects w = None ->
  Mock.get (Mock.storage w) (cacheKey (userid (url request))) = Some object ->
  (Mock.clock w - R2Object.uploaded object <= FRESHNESS_WINDOW)%Z ->
  fst (Mock.serve request bindings w) = cached_response object /\
  upstream_calls (snd (Mock.serve request bindings w)) = [] /\
  store_writes (snd (Mock.serve request bindings w)) = [].
Proof.
  intros Hm Hget Hlookup Hage. unfold FRESHNESS_WINDOW in Hage.
  unfold Mock.serve, fetch. rewrite Hm.
  change (negb (String.eqb "GET" "GET")) with false.
  cbn [run bind call console_log Mock.env respond_to Mock.respond_to world
       Mock.get_rejects Mock.storage Mock.clock].
  rewrite Hget, Hlookup.
  cbn [run bind call console_log Mock.env respond_to Mock.respond_to world
       Mock.get_rejects Mock.storage Mock.clock].
  assert (Hfresh : (R2Object.uploaded object <? Mock.clock w - 901000)%Z = false)
    by (apply Z.ltb_ge; lia).
  rewrite Hfresh.
  cbn [run bind call console_log Mock.env respond_to Mock.respond_to world fst snd].
  repeat split.
Qed.

(** X5. Read-through round trip.  After a request whose upstream call
    succeeded and whose write was accepted, a request for the same subject
    - whatever its [max_results], whatever upstream would answer now - that
    arrives no later than 901 seconds after is served the fetched payload,
    byte for byte, without an upstream call and without a write. *)
Theorem refreshed_entry_is_served
    (request request' : Request) (bindings bindings' : Env) (w w' : Mock.World)
    (input : string) (sent : HeadersInit) (upstream : Upstream.t) (data : JsValue) :
  method request = "GET" ->
  method request' = "GET" ->
  userid (url request') = userid (url request) ->
  Mock.put_rejects w = None ->
  upstream_calls (snd (Mock.serve request bindings w)) = [(input, sent, Normal upstream)] ->
  Upstream.ok upstream = true ->
  Upstream.json upstream = Normal data ->
  Mock.storage w' = Mock.storage (Mock.world_after request bindings w) ->
  Mock.get_rejects w' = None ->
  (Mock.clock w' - Mock.clock w <= FRESHNESS_WINDOW)%Z ->
  body (fst (Mock.serve request bindings w)) = JSON_stringify data /\
  body (fst (Mock.serve request' bindings' w')) = JSON_stringify data /\
  status (fst (Mock.serve request' bindings' w')) = 200%N /\
  upstream_calls (snd (Mock.serve request' bindings' w')) = [] /\
  store_writes (snd (Mock.serve request' bindings' w')) = [].
Proof.
  intros Hm Hm' Hsame Hput Hcalls Hok Hjson Hstorage Hget Hage.
  pose proof (serve_exec request bindings w) as Hexec.
  destruct (mock_run (fetch request bindings) w)
    as (_ & _ & _ & _ & Hafter & Hanswers & _ & _).
  fold (Mock.world_after request bindings w) in Hafter.
  fold (Mock.serve request bindings w) in Hafter, Hanswers.
  destruct (fetch_writes _ _ _ _ Hexec)
    as [Hnone | (input0 & sent0 & upstream0 & data0 & written & _ & Hcalls0 & _ & Hjson0 & Hresp & Hwrites)].
  - (* a successful upstream call is followed by a write *)
    exfalso. clear Hafter Hanswers.
    unfold Mock.serve in *. destruct (run Mock.env (fetch request bindings) w) as [[r t] w1].
    cbn [fst snd] in *.
    fetch_paths Hm Hexec; try discriminate Hnone; try discriminate Hcalls.
    all: injection Hcalls as _ _ <-.
    all: try (rewrite Hok in *; discriminate).
    all: rewrite Hjson in *; discriminate.
  - rewrite Hcalls in Hcalls0. injection Hcalls0 as _ _ <-.
    rewrite Hjson in Hjson0. injection Hjson0 as <-.
    rewrite Hwrites in Hafter, Hanswers.
    apply Forall_cons in Hanswers as [Hwritten _]. cbn in Hwritten.
    unfold Mock.put_answer in Hwritten. rewrite Hput in Hwritten. subst written.
    cbn in Hafter.
    assert (Hlookup : Mock.get (Mock.storage w') (cacheKey (userid (url request')))
                      = Some (Mock.MockR2Object (JSON_stringify data)
                                [("Content-Type", "application/json");
                                 ("userid", userid (url request))]
                                None (Mock.clock w))).
    { rewrite Hstorage, Hafter, Hsame. unfold Mock.get, Mock.put.
      apply lookup_insert_eq. }
    destruct (serve_hit request' bindings' w' _ Hm' Hget Hlookup Hage)
      as (Hresponse & Hnocall & Hnowrite).
    rewrite Hresponse, Hresp. repeat split; assumption.
Qed.

Lemma refreshed_entry_is_served_witness :
  method (GET [("userid", "111"); ("max_results", "3")]) = "GET" /\
  method (GET [("userid", "111"); ("max_results", "50")]) = "GET" /\
  upstream_calls (snd (Mock.serve (GET [("userid", "111"); ("max_results", "3")]) bindings
                         (world_at 0 ∅ upstream_ok)))
    = [(twitterUrl "111" (Finite false 3),
        [ ("content-type", "application/json;charset=UTF-8");
          ("Authorization", "Bearer test-bearer-token") ],
        Normal {| Upstream.status := 200; Upstream.statusText := "OK";
                  Upstream.json := Normal empty_payload |})] /\
  (901000 - 0 <= FRESHNESS_WINDOW)%Z /\
  body (fst (Mock.serve (GET [("userid", "111"); ("max_results", "50")]) bindings
               (world_at 901000
                  (Mock.storage (Mock.world_after (GET [("userid", "111"); ("max_results", "3")])
                                   bindings (world_at 0 ∅ upstream_ok)))
                  upstream_unreachable)))
    = JSON_stringify empty_payload /\
  upstream_calls (snd (Mock.serve (GET [("userid", "111"); ("max_results", "50")]) bindings
               (world_at 901000
                  (Mock.storage (Mock.world_after (GET [("userid", "111"); ("max_results", "3")])
                                   bindings (world_at 0 ∅ upstream_ok)))
                  upstream_unreachable)))
    = [].
Proof.
  assert (Hm : method (GET [("userid", "111"); ("max_results", "3")]) = "GET") by reflexivity.
  assert (Hm' : method (GET [("userid", "111"); ("max_results", "50")]) = "GET") by reflexivity.
  assert (Hcalls :
    upstream_calls (snd (Mock.serve (GET [("userid", "111"); ("max_results", "3")]) bindings
                           (world_at 0 ∅ upstream_ok)))
    = [(twitterUrl "111" (Finite false 3),
        [ ("content-type", "application/json;charset=UTF-8");
          ("Authorization", "Bearer test-bearer-token") ],
        Normal {| Upstream.status := 200; Upstream.statusText := "OK";
                  Upstream.json := Normal empty_payload |})])
    by (vm_compute; reflexivity).
  assert (Hage : (901000 - 0 <= FRESHNESS_WINDOW)%Z) by (unfold FRESHNESS_WINDOW; lia).
  split; [exact Hm |]. split; [exact Hm' |]. split; [exact Hcalls |]. split; [exact Hage |].
  assert (Hstorage :
    Mock.storage (world_at 901000
                    (Mock.storage (Mock.world_after (GET [("userid", "111"); ("max_results", "3")])
                                     bindings (world_at 0 ∅ upstream_ok)))
                    upstream_unreachable)
    = Mock.storage (Mock.world_after (GET [("userid", "111"); ("max_results", "3")])
                      bindings (world_at 0 ∅ upstream_ok)))
    by reflexivity.
  destruct (refreshed_entry_is_served
              (GET [("userid", "111"); ("max_results", "3")])
              (GET [("userid", "111"); ("max_results", "50")])
              bindings bindings (world_at 0 ∅ upstream_ok)
              (world_at 901000
                 (Mock.storage (Mock.world_after (GET [("userid", "111"); ("max_results", "3")])
                                  bindings (world_at 0 ∅ upstream_ok)))
                 upstream_unreachable)
              _ _ _ empty_payload
              Hm Hm' eq_refl eq_refl Hcalls eq_refl eq_refl Hstorage eq_refl Hage)
    as (_ & Hbody & _ & Hnocall & _).
  split; assumption.
Defined.

(** The keys a request writes under: the derived key and no other, for
    any method. *)
Lemma fetch_write_keys (request : Request) (env : Env) (t : trace) (response : Response) :
  exec (fetch request env) t response ->
  Forall (fun write => fst (fst (fst write)) = cacheKey (userid (url request)))
         (store_writes t).
Proof.
  intros Hexec.
  destruct (fetch_writes _ _ _ _ Hexec)
    as [-> | (? & ? & ? & ? & ? & _ & _ & _ & _ & _ & ->)].
  - constructor.
  - repeat constructor.
Qed.

(** X6. Key isolation.  Whatever the request, the method, the state of the
    bucket and the behaviour of upstream, serving a request leaves every
    entry of the bucket other than the one of its own subject as it was. *)
Theorem request_leaves_other_keys_alone
    (request : Request) (bindings : Env) (w : Mock.World) (k : string) :
  k <> cacheKey (userid (url request)) ->
  Mock.get (Mock.storage (Mock.world_after request bindings w)) k
    = Mock.get (Mock.storage w) k.
Proof.
  intros Hne.
  destruct (mock_run (fetch request bindings) w) as (_ & _ & _ & _ & Hafter & _).
  fold (Mock.world_after request bindings w) in Hafter.
  fold (Mock.serve request bindings w) in Hafter.
  rewrite Hafter. apply replay_writes_lookup_ne.
  eapply Forall_impl; [exact (fetch_write_keys _ _ _ _ (serve_exec request bindings w)) |].
  intros write Hkey. cbn beta in Hkey. rewrite Hkey. congruence.
Qed.

Lemma request_leaves_other_keys_alone_witness :
  default_key <> cacheKey (userid (url (GET [("userid", MAMO_AGENT)]))) /\
  Mock.get (Mock.storage (Mock.world_after (GET [("userid", MAMO_AGENT)]) bindings
                            (stale_world upstream_ok)))
           default_key
    = Some old_object.
Proof.
  assert (Hne : default_key <> cacheKey (userid (url (GET [("userid", MAMO_AGENT)]))))
    by (vm_compute; discriminate).
  split; [exact Hne |].
  rewrite (request_leaves_other_keys_alone (GET [("userid", MAMO_AGENT)]) bindings
             (stale_world upstream_ok) default_key Hne).
  vm_compute. reflexivity.
Defined.


(* ===================================================================== *)
(** * The predecessor *)
(* ===================================================================== *)

(** Every path of the predecessor for a GET request. *)
Ltac predecessor_paths Hm Hexec :=
  unfold Predecessor.fetch in Hexec; rewrite Hm in Hexec;
  change (negb (String.eqb "GET" "GET")) with false in Hexec;
  repeat exec_step Hexec; read_trace.

(** What the mock world serves is an execution of the predecessor. *)
Lemma serve_predecessor_exec (request : Request) (env : Env) (w : Mock.World) :
  exec (Predecessor.fetch request env)
       (snd (Mock.serve_predecessor request env w))
       (fst (Mock.serve_predecessor request env w)).
Proof.
  unfold Mock.serve_predecessor.
  destruct (run Mock.env (Predecessor.fetch request env) w) as [[r t] w'] eqn:Hrun.
  exact (run_exec Mock.env _ _ _ _ _ Hrun).
Qed.

(** X8. The predecessor handles no failure: its promise is rejected with
    the value [e] exactly when the bucket read threw [e], or the upstream
    call threw [e], or parsing the body threw [e], or the bucket write
    threw [e] - also when a stale object was at hand, and also after the
    data had been fetched. *)
Theorem predecessor_rejects_on_any_failure
    (request : Request) (env : Env) (t : trace) (result : Completion Response) (e : Error) :
  method request = "GET" ->
  exec (Predecessor.fetch request env) t result ->
  (result = Throw e <->
   (exists key, store_reads t = [(key, Throw e)]) \/
   (exists input sent, upstream_calls t = [(input, sent, Throw e)]) \/
   (exists input sent upstream,
      upstream_calls t = [(input, sent, Normal upstream)] /\
      Upstream.json upstream = Throw e) \/
   (exists key value metadata, store_writes t = [(key, value, metadata, Throw e)])).
Proof.
  intros Hm Hexec.
  predecessor_paths Hm Hexec.
  all: split.
  (* from a rejection to the call that threw *)
  all: try (intros Heq; discriminate Heq).
  all: try (intros Heq; injection Heq as ->;
            first [ left; eexists; reflexivity
                  | right; left; eexists _, _; reflexivity
                  | right; right; left; eexists _, _, _; split; [reflexivity | eassumption]
                  | right; right; right; eexists _, _, _; reflexivity ]).
  (* from a call that threw to the rejection *)
  all: intros [(? & Hread) | [(? & ? & Hcalls)
                | [(? & ? & ? & Hcalls & Hjson) | (? & ? & ? & Hwrite)]]].
  all: try discriminate Hread; try discriminate Hcalls; try discriminate Hwrite.
  all: try (injection Hread as _ ->; reflexivity).
  all: try (injection Hcalls as _ _ ->; reflexivity).
  all: try (injection Hwrite as _ _ _ ->; reflexivity).
  all: injection Hcalls as _ _ <-; rewrite Hjson in *; try discriminate.
  all: match goal with H : Throw _ = Throw _ |- _ => injection H as -> end; reflexivity.
Qed.

Lemma predecessor_rejects_on_any_failure_witness :
  method (GET []) = "GET" /\
  Mock.get (Mock.setWithUploadTime ∅ "latest.json" "{}" 0) "latest.json"
    = Some (object_uploaded_at 0) /\
  fst (Mock.serve_predecessor (GET []) bindings
         (world_at 2000000 (Mock.setWithUploadTime ∅ "latest.json" "{}" 0) upstream_unreachable))
    = Throw (new_Error "Network error").
Proof.
  assert (Hm : method (GET []) = "GET") by reflexivity.
  split; [exact Hm |]. split; [vm_compute; reflexivity |].
  apply (proj2 (predecessor_rejects_on_any_failure (GET []) bindings _ _
                  (new_Error "Network error") Hm
                  (serve_predecessor_exec (GET []) bindings
                     (world_at 2000000 (Mock.setWithUploadTime ∅ "latest.json" "{}" 0)
                        upstream_unreachable)))).
  right. left. eexists _, _. vm_compute. reflexivity.
Defined.

(** X9. The predecessor does not look at the upstream status: whatever the
    status, a body that parses is written under [latest.json] and, when the
    write is accepted, returned with status 200 - a rate-limit or
    not-found body from upstream is cached and served like tweets. *)
Theorem predecessor_ignores_upstream_status
    (request : Request) (env : Env) (t : trace) (result : Completion Response)
    (input : string) (sent : HeadersInit) (upstream : Upstream.t) (data : JsValue) :
  method request = "GET" ->
  exec (Predecessor.fetch request env) t result ->
  upstream_calls t = [(input, sent, Normal upstream)] ->
  Upstream.json upstream = Normal data ->
  exists written,
    store_writes t =
      [("latest.json", JSON_stringify data, [("Content-Type", "application/json")], written)] /\
    (written = Normal tt -> result = Normal (respond data None)) /\
    (forall e, written = Throw e -> result = Throw e).
Proof.
  intros Hm Hexec Hcalls Hjson.
  predecessor_paths Hm Hexec; try discriminate Hcalls.
  all: injection Hcalls as _ _ <-.
  all: rewrite Hjson in *; try discriminate.
  all: match goal with H : Normal _ = Normal _ |- _ => injection H as <- end.
  all: eexists; split; [reflexivity |]; split.
  all: try (intros Heq; discriminate Heq).
  all: try (intros e' Heq; discriminate Heq).
  all: try (intros e' Heq; injection Heq as ->; reflexivity).
  all: intros _; match goal with u : unit |- _ => destruct u end; reflexivity.
Qed.

Lemma predecessor_ignores_upstream_status_witness :
  method (GET []) = "GET" /\
  upstream_calls (snd (Mock.serve_predecessor (GET []) bindings
                         (world_at 0 ∅ upstream_rate_limited)))
    = [(Predecessor.twitterUrl (url (GET [])),
        [ ("content-type", "application/json;charset=UTF-8");
          ("Authorization", "Bearer test-bearer-token") ],
        Normal {| Upstream.status := 429; Upstream.statusText := "Too Many Requests";
                  Upstream.json := Normal (error_body "Rate limit exceeded") |})] /\
  fst (Mock.serve_predecessor (GET []) bindings (world_at 0 ∅ upstream_rate_limited))
    = Normal (respond (error_body "Rate limit exceeded") None) /\
  R2Object.body <$>
    Mock.get (Mock.storage (Mock.world_after_predecessor (GET []) bindings
                              (world_at 0 ∅ upstream_rate_limited)))
             "latest.json"
    = Some (JSON_stringify (error_body "Rate limit exceeded")).
Proof.
  assert (Hm : method (GET []) = "GET") by reflexivity.
  assert (Hcalls :
    upstream_calls (snd (Mock.serve_predecessor (GET []) bindings
                           (world_at 0 ∅ upstream_rate_limited)))
    = [(Predecessor.twitterUrl (url (GET [])),
        [ ("content-type", "application/json;charset=UTF-8");
          ("Authorization", "Bearer test-bearer-token") ],
        Normal {| Upstream.status := 429; Upstream.statusText := "Too Many Requests";
                  Upstream.json := Normal (error_body "Rate limit exceeded") |})])
    by (vm_compute; reflexivity).
  split; [exact Hm |]. split; [exact Hcalls |].
  split; [| vm_compute; reflexivity].
  destruct (predecessor_ignores_upstream_status _ _ _ _ _ _ _ _ Hm
              (serve_predecessor_exec (GET []) bindings (world_at 0 ∅ upstream_rate_limited))
              Hcalls eq_refl)
    as (written & Hwrites & Haccepted & _).
  apply Haccepted.
  vm_compute in Hwrites. injection Hwrites as <-. reflexivity.
Defined.

(** The write of the predecessor after an upstream body that parsed. *)
Lemma predecessor_refresh_writes
    (request : Request) (env : Env) (t : trace) (result : Completion Response)
    (input : string) (sent : HeadersInit) (upstream : Upstream.t) (data : JsValue) :
  method request = "GET" ->
  exec (Predecessor.fetch request env) t result ->
  upstream_calls t = [(input, sent, Normal upstream)] ->
  Upstream.json upstream = Normal data ->
  exists written,
    store_writes t =
      [("latest.json", JSON_stringify data, [("Content-Type", "application/json")], written)].
Proof.
  intros Hm Hexec Hcalls Hjson.
  predecessor_paths Hm Hexec; try discriminate Hcalls.
  all: injection Hcalls as _ _ <-.
  all: rewrite Hjson in *; try discriminate.
  all: match goal with H : Normal _ = Normal _ |- _ => injection H as <- end.
  all: eexists; reflexivity.
Qed.

(** A request the predecessor serves from the bucket, spelled out. *)
Lemma serve_predecessor_hit
    (request : Request) (bindings : Env) (w : Mock.World) (object : R2Object.t) :
  method request = "GET" ->
  Mock.get_rejects w = None ->
  Mock.get (Mock.storage w) "latest.json" = Some object ->
  (Mock.clock w - R2Object.uploaded object <= PREDECESSOR_WINDOW)%Z ->
  fst (Mock.serve_predecessor request bindings w) = Normal (cached_response object) /\
  upstream_calls (snd (Mock.serve_predecessor request bindings w)) = [].
Proof.
  intros Hm Hget Hlookup Hage. unfold PREDECESSOR_WINDOW in Hage.
  unfold Mock.serve_predecessor, Predecessor.fetch. rewrite Hm.
  change (negb (String.eqb "GET" "GET")) with false.
  cbn [run bind call console_log Mock.env respond_to Mock.respond_to world
       Mock.get_rejects Mock.storage Mock.clock].
  rewrite Hget, Hlookup.
  cbn [run bind call console_log Mock.env respond_to Mock.respond_to world
       Mock.get_rejects Mock.storage Mock.clock].
  assert (Hfresh : (R2Object.uploaded object <? Mock.clock w - 600000)%Z = false)
    by (apply Z.ltb_ge; lia).
  rewrite Hfresh.
  cbn [run bind call console_log Mock.env respond_to Mock.respond_to world fst snd].
  repeat split.
Qed.

(** X10. The cache collision of the predecessor.  After a request whose
    upstream body parsed and whose write was accepted, a request for any
    subject - another [userid] as well - that arrives no later than 600
    seconds after is answered with the payload fetched for the first one,
    and upstream is not asked. *)
Theorem predecessor_serves_one_subject_to_another
    (request request' : Request) (bindings bindings' : Env) (w w' : Mock.World)
    (input : string) (sent : HeadersInit) (upstream : Upstream.t) (data : JsValue) :
  method request = "GET" ->
  method request' = "GET" ->
  Mock.put_rejects w = None ->
  upstream_calls (snd (Mock.serve_predecessor request bindings w))
    = [(input, sent, Normal upstream)] ->
  Upstream.json upstream = Normal data ->
  Mock.storage w' = Mock.storage (Mock.world_after_predecessor request bindings w) ->
  Mock.get_rejects w' = None ->
  (Mock.clock w' - Mock.clock w <= PREDECESSOR_WINDOW)%Z ->
  (exists response',
     fst (Mock.serve_predecessor request' bindings' w') = Normal response' /\
     body response' = JSON_stringify data /\ status response' = 200%N) /\
  upstream_calls (snd (Mock.serve_predecessor request' bindings' w')) = [].
Proof.
  intros Hm Hm' Hput Hcalls Hjson Hstorage Hget Hage.
  pose proof (serve_predecessor_exec request bindings w) as Hexec.
  destruct (mock_run (Predecessor.fetch request bindings) w)
    as (_ & _ & _ & _ & Hafter & Hanswers & _ & _).
  fold (Mock.world_after_predecessor request bindings w) in Hafter.
  fold (Mock.serve_predecessor request bindings w) in Hafter, Hanswers.
  destruct (predecessor_refresh_writes _ _ _ _ _ _ _ _ Hm Hexec Hcalls Hjson)
    as (written & Hwrites).
  rewrite Hwrites in Hafter, Hanswers.
  apply Forall_cons in Hanswers as [Hwritten _]. cbn in Hwritten.
  unfold Mock.put_answer in Hwritten. rewrite Hput in Hwritten. subst written.
  cbn in Hafter.
  assert (Hlookup : Mock.get (Mock.storage w') "latest.json"
                    = Some (Mock.MockR2Object (JSON_stringify data)
                              [("Content-Type", "application/json")] None (Mock.clock w))).
  { rewrite Hstorage, Hafter. unfold Mock.get, Mock.put. apply lookup_insert_eq. }
  destruct (serve_predecessor_hit request' bindings' w' _ Hm' Hget Hlookup Hage)
    as (Hresponse & Hnocall).
  split; [| exact Hnocall].
  eexists. split; [exact Hresponse |]. split; reflexivity.
Qed.

Lemma predecessor_serves_one_subject_to_another_witness :
  method (GET [("userid", MOONWELL_DEFI)]) = "GET" /\
  method (GET [("userid", MAMO_AGENT)]) = "GET" /\
  upstream_calls (snd (Mock.serve_predecessor (GET [("userid", MOONWELL_DEFI)]) bindings
                         (world_at 0 ∅ upstream_ok)))
    = [(Predecessor.twitterUrl (url (GET [("userid", MOONWELL_DEFI)])),
        [ ("content-type", "application/json;charset=UTF-8");
          ("Authorization", "Bearer test-bearer-token") ],
        Normal {| Upstream.status := 200; Upstream.statusText := "OK";
                  Upstream.json := Normal empty_payload |})] /\
  (600000 - 0 <= PREDECESSOR_WINDOW)%Z /\
  upstream_calls
    (snd (Mock.serve_predecessor (GET [("userid", MAMO_AGENT)]) bindings
            (world_at 600000
               (Mock.storage (Mock.world_after_predecessor (GET [("userid", MOONWELL_DEFI)])
                                bindings (world_at 0 ∅ upstream_ok)))
               upstream_rate_limited)))
    = [].
Proof.
  assert (Hm : method (GET [("userid", MOONWELL_DEFI)]) = "GET") by reflexivity.
  assert (Hm' : method (GET [("userid", MAMO_AGENT)]) = "GET") by reflexivity.
  assert (Hcalls :
    upstream_calls (snd (Mock.serve_predecessor (GET [("userid", MOONWELL_DEFI)]) bindings
                           (world_at 0 ∅ upstream_ok)))
    = [(Predecessor.twitterUrl (url (GET [("userid", MOONWELL_DEFI)])),
        [ ("content-type", "application/json;charset=UTF-8");
          ("Authorization", "Bearer test-bearer-token") ],
        Normal {| Upstream.status := 200; Upstream.statusText := "OK";
                  Upstream.json := Normal empty_payload |})])
    by (vm_compute; reflexivity).
  assert (Hage : (600000 - 0 <= PREDECESSOR_WINDOW)%Z) by (unfold PREDECESSOR_WINDOW; lia).
  assert (Hstorage :
    Mock.storage (world_at 600000
                    (Mock.storage (Mock.world_after_predecessor (GET [("userid", MOONWELL_DEFI)])
                                     bindings (world_at 0 ∅ upstream_ok)))
                    upstream_rate_limited)
    = Mock.storage (Mock.world_after_predecessor (GET [("userid", MOONWELL_DEFI)])
                      bindings (world_at 0 ∅ upstream_ok)))
    by reflexivity.
  split; [exact Hm |]. split; [exact Hm' |]. split; [exact Hcalls |]. split; [exact Hage |].
  exact (proj2 (predecessor_serves_one_subject_to_another
                  (GET [("userid", MOONWELL_DEFI)]) (GET [("userid", MAMO_AGENT)])
                  bindings bindings (world_at 0 ∅ upstream_ok)
                  (world_at 600000
                     (Mock.storage (Mock.world_after_predecessor (GET [("userid", MOONWELL_DEFI)])
                                      bindings (world_at 0 ∅ upstream_ok)))
                     upstream_rate_limited)
                  _ _ _ empty_payload
                  Hm Hm' eq_refl Hcalls eq_refl Hstorage eq_refl Hage)).
Defined.

(** X11. The freshness window of the predecessor is 600 seconds, with the
    same strict comparison: an object the bucket holds is served, with no
    upstream call, exactly when [now - uploaded <= 600 s]. *)
Theorem predecessor_window_is_600s
    (request : Request) (env : Env) (t : trace) (result : Completion Response)
    (key : string) (object : R2Object.t) (now : Z) :
  method request = "GET" ->
  exec (Predecessor.fetch request env) t result ->
  store_reads t = [(key, Normal (Some object))] ->
  clock_reads t = [now] ->
  ((upstream_calls t = [] /\ result = Normal (cached_response object)) <->
   (now - R2Object.uploaded object <= PREDECESSOR_WINDOW)%Z) /\
  ((exists call, upstream_calls t = [call]) <->
   (now - R2Object.uploaded object > PREDECESSOR_WINDOW)%Z).
Proof.
  intros Hm Hexec Hread Hclock. unfold PREDECESSOR_WINDOW.
  predecessor_paths Hm Hexec; try discriminate Hread.
  all: injection Hread as _ ->; injection Hclock as ->.
  all: first [apply Z.ltb_lt in Heqb | apply Z.ltb_ge in Heqb].
  all: split; split.
  all: try (intros [Hcalls _]; discriminate Hcalls).
  all: try (intros [call Hcalls]; discriminate Hcalls).
  all: try (intros; lia).
  all: try (intros _; eexists; reflexivity).
  all: intros _; split; reflexivity.
Qed.

Lemma predecessor_window_is_600s_witness :
  method (GET []) = "GET" /\
  store_reads (snd (Mock.serve_predecessor (GET []) bindings
                      (world_at 600000 (Mock.setWithUploadTime ∅ "latest.json" "{}" 0)
                         upstream_ok)))
    = [("latest.json", Normal (Some (object_uploaded_at 0)))] /\
  clock_reads (snd (Mock.serve_predecessor (GET []) bindings
                      (world_at 600000 (Mock.setWithUploadTime ∅ "latest.json" "{}" 0)
                         upstream_ok)))
    = [600000%Z] /\
  (600000 - R2Object.uploaded (object_uploaded_at 0) <= PREDECESSOR_WINDOW)%Z /\
  upstream_calls (snd (Mock.serve_predecessor (GET []) bindings
                         (world_at 600000 (Mock.setWithUploadTime ∅ "latest.json" "{}" 0)
                            upstream_ok)))
    = [].
Proof.
  assert (Hm : method (GET []) = "GET") by reflexivity.
  assert (Hread :
    store_reads (snd (Mock.serve_predecessor (GET []) bindings
                        (world_at 600000 (Mock.setWithUploadTime ∅ "latest.json" "{}" 0)
                           upstream_ok)))
    = [("latest.json", Normal (Some (object_uploaded_at 0)))])
    by (vm_compute; reflexivity).
  assert (Hclock :
    clock_reads (snd (Mock.serve_predecessor (GET []) bindings
                        (world_at 600000 (Mock.setWithUploadTime ∅ "latest.json" "{}" 0)
                           upstream_ok)))
    = [600000%Z])
    by (vm_compute; reflexivity).
  assert (Hage : (600000 - R2Object.uploaded (object_uploaded_at 0) <= PREDECESSOR_WINDOW)%Z)
    by (vm_compute; discriminate).
  repeat (split; [assumption |]).
  exact (proj1 (proj2 (proj1 (predecessor_window_is_600s _ _ _ _ _ _ _ Hm
                                (serve_predecessor_exec _ _ _) Hread Hclock)) Hage)).
Defined.

(** X12. The predecessor has no fall-back on the parsed [max_results]: a
    value that [parseInt] does not parse is sent upstream as
    [max_results=NaN], for the liked tweets of the subject. *)
Theorem predecessor_forwards_NaN
    (request : Request) (env : Env) (t : trace) (result : Completion Response) (s : string) :
  method request = "GET" ->
  exec (Predecessor.fetch request env) t result ->
  URLSearchParams_get (searchParams (url request)) "max_results" = Some s ->
  s <> "" ->
  parseInt s = NaN ->
  Forall (fun call =>
            fst (fst call) =
            "https://api.twitter.com/2/users/" +:+ userid (url request) +:+
            "/liked_tweets?max_results=NaN&tweet.fields=created_at,entities,public_metrics&expansions=author_id&user.fields=profile_image_url,username")
         (upstream_calls t).
Proof.
  intros Hm Hexec Hs Hnonempty Hnan.
  assert (Hurl : Predecessor.twitterUrl (url request) =
                 "https://api.twitter.com/2/users/" +:+ userid (url request) +:+
                 "/liked_tweets?max_results=NaN&tweet.fields=created_at,entities,public_metrics&expansions=author_id&user.fields=profile_image_url,username").
  { unfold Predecessor.twitterUrl, userid. rewrite Hs.
    destruct s as [| c s]; [contradiction |].
    cbn [string_or]. rewrite Hnan. reflexivity. }
  predecessor_paths Hm Hexec.
  all: rewrite ?Hurl; repeat constructor.
Qed.

Lemma predecessor_forwards_NaN_witness :
  method (GET [("max_results", "invalid")]) = "GET" /\
  parseInt "invalid" = NaN /\
  (fun call => fst (fst call)) <$>
    upstream_calls (snd (Mock.serve_predecessor (GET [("max_results", "invalid")]) bindings
                           (world_at 0 ∅ upstream_ok)))
    = [ "https://api.twitter.com/2/users/1472197491844026370/liked_tweets?max_results=NaN&tweet.fields=created_at,entities,public_metrics&expansions=author_id&user.fields=profile_image_url,username" ] /\
  Forall (fun call =>
            fst (fst call) =
            "https://api.twitter.com/2/users/" +:+ userid (url (GET [("max_results", "invalid")])) +:+
            "/liked_tweets?max_results=NaN&tweet.fields=created_at,entities,public_metrics&expansions=author_id&user.fields=profile_image_url,username")
         (upstream_calls (snd (Mock.serve_predecessor (GET [("max_results", "invalid")]) bindings
                                 (world_at 0 ∅ upstream_ok)))).
Proof.
  assert (Hm : method (GET [("max_results", "invalid")]) = "GET") by reflexivity.
  assert (Hnan : parseInt "invalid" = NaN) by reflexivity.
  split; [exact Hm |]. split; [exact Hnan |]. split; [vm_compute; reflexivity |].
  apply (predecessor_forwards_NaN _ bindings _ _ "invalid" Hm
           (serve_predecessor_exec _ _ _) eq_refl).
  - discriminate.
  - exact Hnan.
Defined.

(* ===================================================================== *)
(** * The in-memory bucket *)
(* ===================================================================== *)


(** X14. A second [put] under a key replaces the object: nothing of the
    first value, metadata or upload time is left, and the bucket is the one
    a single [put] of the second object would have given. *)
Theorem bucket_put_overwrites
    (storage : Mock.MockR2Bucket) (key value1 value2 : string)
    (metadata1 metadata2 : list (string * string)) (now1 now2 : Z) :
  Mock.put (Mock.put storage key value1 metadata1 now1) key value2 metadata2 now2
    = Mock.put storage key value2 metadata2 now2.
Proof.
  unfold Mock.put. apply insert_insert_eq.
Qed.

(** X15. [delete] removes the key and nothing else, also right after a
    [put] under that key, and deleting a key that is not there changes
    nothing; [clear] leaves no key. *)
Theorem bucket_delete_and_clear
    (storage : Mock.MockR2Bucket) (key value : string)
    (metadata : list (string * string)) (now : Z) (k : string) :
  Mock.get (Mock.delete storage key) k
    = (if String.eqb k key then None else Mock.get storage k) /\
  Mock.delete (Mock.put storage key value metadata now) key = Mock.delete storage key /\
  (Mock.get storage key = None -> Mock.delete storage key = storage) /\
  Mock.get (Mock.clear storage) k = None.
Proof.
  unfold Mock.get, Mock.put, Mock.delete, Mock.clear.
  split; [| split; [| split]].
  - destruct (String.eqb_spec k key) as [-> | Hne].
    + apply lookup_delete_eq.
    + apply lookup_delete_ne. congruence.
  - apply delete_insert_eq.
  - intros Hnone. apply delete_id. exact Hnone.
  - apply lookup_empty.
Qed.

(* ===================================================================== *)
(** * What is logged *)
(* ===================================================================== *)

(** X16. No failure of a collaborator passes unlogged: a read that threw,
    an upstream call that threw, a non-success status (as
    [HTTP <status>: <statusText>]), a body that did not parse and a write
    that threw each leave their own line on the console, with the value
    that was thrown. *)
Theorem failures_are_logged
    (request : Request) (env : Env) (t : trace) (response : Response) :
  method request = "GET" ->
  exec (fetch request env) t response ->
  (forall key e, store_reads t = [(key, Throw e)] ->
     [LogString "Error reading from R2 cache:"; LogError e] ∈ logs t) /\
  (forall input sent e, upstream_calls t = [(input, sent, Throw e)] ->
     [LogString "Error fetching from Twitter: "; LogError e] ∈ logs t) /\
  (forall input sent upstream,
     upstream_calls t = [(input, sent, Normal upstream)] ->
     Upstream.ok upstream = false ->
     [LogString "Error fetching from Twitter: ";
      LogError (new_Error ("HTTP " +:+ digits (Upstream.status upstream) +:+ ": " +:+
                           Upstream.statusText upstream))] ∈ logs t) /\
  (forall input sent upstream e,
     upstream_calls t = [(input, sent, Normal upstream)] ->
     Upstream.ok upstream = true ->
     Upstream.json upstream = Throw e ->
     [LogString "Error parsing JSON response:"; LogError e] ∈ logs t) /\
  (forall key value metadata e, store_writes t = [(key, value, metadata, Throw e)] ->
     [LogString "Error storing to R2 cache:"; LogError e] ∈ logs t).
Proof.
  intros Hm Hexec.
  fetch_paths Hm Hexec; cbn [logs flat_map log_of app].
  all: split; [| split; [| split; [| split]]]; intros.
  all: simplify_eq.
  all: repeat match goal with
              | H : ?a = _, H' : ?a = _ |- _ => rewrite H in H'
              | H : negb ?b = _, H' : ?b = _ |- _ => rewrite H' in H; cbn [negb] in H
              end.
  all: simplify_eq.
  all: repeat first [apply list_elem_of_here | apply list_elem_of_further].
Qed.

Lemma failures_are_logged_witness :
  method (GET []) = "GET" /\
  upstream_calls (snd (Mock.serve (GET []) bindings (stale_world upstream_rate_limited)))
    = [default_call (upstream_rate_limited "" [])] /\
  [LogString "Error fetching from Twitter: ";
   LogError (new_Error "HTTP 429: Too Many Requests")]
    ∈ logs (snd (Mock.serve (GET []) bindings (stale_world upstream_rate_limited))).
Proof.
  assert (Hm : method (GET []) = "GET") by reflexivity.
  assert (Hcalls :
    upstream_calls (snd (Mock.serve (GET []) bindings (stale_world upstream_rate_limited)))
    = [default_call (upstream_rate_limited "" [])])
    by (vm_compute; reflexivity).
  split; [exact Hm |]. split; [exact Hcalls |].
  exact (proj1 (proj2 (proj2 (failures_are_logged _ _ _ _ Hm
                                (serve_exec (GET []) bindings
                                   (stale_world upstream_rate_limited)))))
           _ _ _ Hcalls eq_refl).
Defined.

(* ===================================================================== *)
(** * The mocked Twitter API *)
(* ===================================================================== *)

Lemma slice_to_prefix {A : Type} (array : list A) (finish : Number) :
  TwitterMock.slice_to array finish `prefix_of` array.
Proof.
  destruct finish as [| [|] [| m] | [|]]; cbn [TwitterMock.slice_to];
    first [apply prefix_nil | apply prefix_take | reflexivity].
Qed.

(** X17. For a mock user, [createMockTwitterResponse] answers with that
    user and with the first tweets of the user, in order, [result_count]
    being their number: 6 at most when no limit is given, [n] at most for a
    limit [n >= 0], all but the last [n] for a limit [-n], none for NaN;
    with no tweet returned both ids of [meta] are empty. *)
Theorem createMockTwitterResponse_limits
    (MOCK_TWEETS : gmap string (list TwitterMock.TwitterTweet))
    (user : TwitterMock.TwitterUser) (maxResults : option Number) :
  user ∈ TwitterMock.MOCK_USERS ->
  exists r,
    TwitterMock.createMockTwitterResponse MOCK_TWEETS (TwitterMock.user_id user) maxResults
      = Normal r /\
    TwitterMock.includes_users r = [user] /\
    TwitterMock.data r `prefix_of` TwitterMock.tweets_of MOCK_TWEETS (TwitterMock.user_id user) /\
    TwitterMock.result_count (TwitterMock.meta r) = N.of_nat (length (TwitterMock.data r)) /\
    (maxResults = None ->
     length (TwitterMock.data r)
       = min 6 (length (TwitterMock.tweets_of MOCK_TWEETS (TwitterMock.user_id user)))) /\
    (forall n, maxResults = Some (Finite false n) ->
       length (TwitterMock.data r)
         = min (N.to_nat n)
               (length (TwitterMock.tweets_of MOCK_TWEETS (TwitterMock.user_id user)))) /\
    (forall n, maxResults = Some (Finite true n) -> n <> 0%N ->
       length (TwitterMock.data r)
         = length (TwitterMock.tweets_of MOCK_TWEETS (TwitterMock.user_id user)) - N.to_nat n) /\
    (maxResults = Some NaN -> TwitterMock.data r = []) /\
    (TwitterMock.data r = [] ->
     TwitterMock.newest_id (TwitterMock.meta r) = "" /\
     TwitterMock.oldest_id (TwitterMock.meta r) = "").
Proof.
  intros Huser.
  assert (Hfound : List.find (fun u => String.eqb (TwitterMock.user_id u) (TwitterMock.user_id user))
                             TwitterMock.MOCK_USERS = Some user).
  { unfold TwitterMock.MOCK_USERS in Huser.
    apply elem_of_cons in Huser as [-> | Huser]; [reflexivity |].
    apply elem_of_cons in Huser as [-> | Huser]; [reflexivity |].
    apply elem_of_nil in Huser. contradiction. }
  unfold TwitterMock.createMockTwitterResponse. rewrite Hfound.
  eexists. split; [reflexivity |]. cbn [TwitterMock.includes_users TwitterMock.data
                                         TwitterMock.meta TwitterMock.result_count
                                         TwitterMock.newest_id TwitterMock.oldest_id].
  split; [reflexivity |]. split; [apply slice_to_prefix |]. split; [reflexivity |].
  split; [| split; [| split; [| split]]].
  - intros ->. cbn [default from_option id TwitterMock.slice_to]. apply length_take.
  - intros n ->. cbn [default from_option id]. destruct n as [| p].
    + reflexivity.
    + cbn [TwitterMock.slice_to]. apply length_take.
  - intros n -> Hn. cbn [default from_option id]. destruct n as [| p]; [contradiction |].
    cbn [TwitterMock.slice_to]. rewrite length_take. lia.
  - intros ->. reflexivity.
  - intros ->. split; reflexivity.
Qed.

Lemma createMockTwitterResponse_limits_witness :
  {| TwitterMock.user_id := "1472197491844026370";
     TwitterMock.username := "MoonwellDeFi";
     TwitterMock.profile_image_url :=
       "https://pbs.twimg.com/profile_images/1472197491844026370/test.jpg" |}
    ∈ TwitterMock.MOCK_USERS /\
  exists r,
    TwitterMock.createMockTwitterResponse two_tweets MOONWELL_DEFI (Some (Finite false 1))
      = Normal r /\
    TwitterMock.data r = [tweet "1001" MOONWELL_DEFI] /\
    TwitterMock.result_count (TwitterMock.meta r) = 1%N.
Proof.
  assert (Huser :
    {| TwitterMock.user_id := "1472197491844026370";
       TwitterMock.username := "MoonwellDeFi";
       TwitterMock.profile_image_url :=
         "https://pbs.twimg.com/profile_images/1472197491844026370/test.jpg" |}
      ∈ TwitterMock.MOCK_USERS) by apply list_elem_of_here.
  split; [exact Huser |].
  destruct (createMockTwitterResponse_limits two_tweets _ (Some (Finite false 1)) Huser)
    as (r & Hr & _).
  exists r. split; [exact Hr |].
  vm_compute in Hr. injection Hr as <-. split; reflexivity.
Defined.

(** X18. For an id that is not the id of a mock user,
    [createMockTwitterResponse] throws, naming the id - whatever the limit,
    and also when the table of tweets has an entry for that id. *)
Theorem createMockTwitterResponse_unknown_user
    (MOCK_TWEETS : gmap string (list TwitterMock.TwitterTweet))
    (userId : string) (maxResults : option Number) :
  userId <> "1472197491844026370" ->
  userId <> "1883305846995845120" ->
  TwitterMock.createMockTwitterResponse MOCK_TWEETS userId maxResults
    = Throw (new_Error ("Mock user not found for ID: " +:+ userId)).
Proof.
  intros Hmoonwell Hmamo.
  unfold TwitterMock.createMockTwitterResponse, TwitterMock.MOCK_USERS.
  cbn [List.find TwitterMock.user_id].
  destruct (String.eqb_spec "1472197491844026370" userId) as [Heq | _]; [congruence |].
  destruct (String.eqb_spec "1883305846995845120" userId) as [Heq | _]; [congruence |].
  reflexivity.
Qed.

Lemma createMockTwitterResponse_unknown_user_witness :
  "9999999999999999999" <> "1472197491844026370" /\
  "9999999999999999999" <> "1883305846995845120" /\
  TwitterMock.createMockTwitterResponse
    {[ "9999999999999999999" := [tweet "1" "9999999999999999999"] ]}
    "9999999999999999999" None
    = Throw (new_Error "Mock user not found for ID: 9999999999999999999").
Proof.
  assert (H1 : "9999999999999999999" <> "1472197491844026370") by discriminate.
  assert (H2 : "9999999999999999999" <> "1883305846995845120") by discriminate.
  split; [exact H1 |]. split; [exact H2 |].
  exact (createMockTwitterResponse_unknown_user _ _ None H1 H2).
Defined.

(* ===================================================================== *)
(** * One bucket, many requests *)
(* ===================================================================== *)

Lemma replay_writes_keeps (now : Z) (k : string)
    (writes : list (string * string * list (string * string) * Completion unit)) :
  forall storage : Mock.MockR2Bucket,
    is_Some (Mock.get storage k) ->
    is_Some (Mock.get (Mock.replay_writes now writes storage) k).
Proof.
  induction writes as [| [[[key value] metadata] written] writes IH]; intros storage Hsome.
  - exact Hsome.
  - change (is_Some (Mock.get (Mock.replay_writes now writes
                                 (Mock.replay_write now storage (key, value, metadata, written))) k)).
    apply IH. destruct written as [e | []]; cbn [Mock.replay_write].
    + exact Hsome.
    + unfold Mock.get, Mock.put in *.
      destruct (decide (key = k)) as [-> | Hne].
      * eexists. apply lookup_insert_eq.
      * destruct Hsome as [object Hobject]. exists object.
        etrans; [apply lookup_insert_ne; exact Hne | exact Hobject].
Qed.

(** One request keeps every entry of the bucket. *)
Lemma world_after_keeps (request : Request) (bindings : Env) (w : Mock.World) (k : string) :
  is_Some (Mock.get (Mock.storage w) k) ->
  is_Some (Mock.get (Mock.storage (Mock.world_after request bindings w)) k).
Proof.
  intros Hsome.
  destruct (mock_run (fetch request bindings) w) as (_ & _ & _ & _ & Hafter & _).
  fold (Mock.world_after request bindings w) in Hafter.
  rewrite Hafter. apply replay_writes_keeps. exact Hsome.
Qed.

(** What the bucket read of a GET request gets in the mock world. *)
Lemma serve_read (request : Request) (bindings : Env) (w : Mock.World) :
  method request = "GET" ->
  store_reads (snd (Mock.serve request bindings w))
    = [(cacheKey (userid (url request)),
        match Mock.get_rejects w with
        | Some e => Throw e
        | None => Normal (Mock.get (Mock.storage w) (cacheKey (userid (url request))))
        end)].
Proof.
  intros Hm.
  destruct (fetch_store_keys request bindings _ _ Hm (serve_exec request bindings w))
    as [[got Hread] _].
  rewrite Hread. revert Hread.
  unfold Mock.serve, fetch. rewrite Hm.
  change (negb (String.eqb "GET" "GET")) with false.
  cbn [run bind call console_log Mock.env respond_to Mock.respond_to world
       Mock.get_rejects Mock.storage Mock.clock].
  match goal with
  | |- context [run Mock.env ?p ?w1] => destruct (run Mock.env p w1) as [[r t] w2]
  end.
  cbn [fst snd]. read_trace. intros Hread. injection Hread as <- _. reflexivity.
Qed.

(** A GET request that read an object answers 200. *)
Lemma held_object_gives_200
    (request : Request) (env : Env) (t : trace) (response : Response)
    (key : string) (object : R2Object.t) :
  method request = "GET" ->
  exec (fetch request env) t response ->
  store_reads t = [(key, Normal (Some object))] ->
  status response = 200%N.
Proof.
  intros Hm Hexec Hread.
  fetch_paths Hm Hexec; try discriminate Hread; reflexivity.
Qed.

(** X19. The worker never removes an entry: a key the bucket holds is
    still held after any sequence of requests, whatever they ask for and
    whatever fails on the way. *)
Theorem entries_are_never_removed
    (arrivals : list Arrival) (storage : Mock.MockR2Bucket) (k : string) :
  is_Some (Mock.get storage k) ->
  is_Some (Mock.get (snd (serve_session storage arrivals)) k).
Proof.
  revert storage. induction arrivals as [| a rest IH]; intros storage Hsome.
  - exact Hsome.
  - cbn [serve_session].
    specialize (IH (Mock.storage (Mock.world_after (arrival_request a) (arrival_bindings a)
                                    (arrival_world storage a)))
                   (world_after_keeps _ _ (arrival_world storage a) k Hsome)).
    destruct (serve_session _ rest) as [responses final]. exact IH.
Qed.

Lemma entries_are_never_removed_witness :
  is_Some (Mock.get bucket_with_old_object default_key) /\
  is_Some (Mock.get (snd (serve_session bucket_with_old_object outage)) default_key) /\
  Mock.get (snd (serve_session bucket_with_old_object outage)) default_key = Some old_object.
Proof.
  assert (Hsome : is_Some (Mock.get bucket_with_old_object default_key))
    by (exists old_object; vm_compute; reflexivity).
  split; [exact Hsome |].
  split; [exact (entries_are_never_removed outage bucket_with_old_object default_key Hsome) |].
  vm_compute. reflexivity.
Defined.

(** X20. Once the bucket holds an entry for a subject, no request for that
    subject is answered with an error as long as its bucket read is not
    rejected: in any later sequence of requests, every GET for the subject
    gets status 200 - fresh, refreshed or stale - whatever upstream does. *)
Theorem no_error_once_cached
    (arrivals : list Arrival) (storage : Mock.MockR2Bucket) (subject : string) :
  is_Some (Mock.get storage (cacheKey subject)) ->
  Forall2 (fun a response => reads_subject subject a -> status response = 200%N)
          arrivals (fst (serve_session storage arrivals)).
Proof.
  revert storage. induction arrivals as [| a rest IH]; intros storage Hsome.
  - constructor.
  - cbn [serve_session].
    specialize (IH (Mock.storage (Mock.world_after (arrival_request a) (arrival_bindings a)
                                    (arrival_world storage a)))
                   (world_after_keeps _ _ (arrival_world storage a) _ Hsome)).
    destruct (serve_session _ rest) as [responses final]. cbn [fst] in *.
    constructor; [| exact IH].
    intros (Hm & Hsubject & Hget).
    destruct Hsome as [object Hobject].
    pose proof (serve_read (arrival_request a) (arrival_bindings a)
                  (arrival_world storage a) Hm) as Hread.
    cbn [arrival_world Mock.get_rejects Mock.storage] in Hread.
    rewrite Hget, Hsubject, Hobject in Hread.
    exact (held_object_gives_200 _ _ _ _ _ _ Hm (serve_exec _ _ _) Hread).
Qed.

Lemma no_error_once_cached_witness :
  is_Some (Mock.get bucket_with_old_object (cacheKey MOONWELL_DEFI)) /\
  status <$> fst (serve_session bucket_with_old_object outage) = [200; 405; 200; 200]%N /\
  Forall2 (fun a response => reads_subject MOONWELL_DEFI a -> status response = 200%N)
          outage (fst (serve_session bucket_with_old_object outage)).
Proof.
  assert (Hsome : is_Some (Mock.get bucket_with_old_object (cacheKey MOONWELL_DEFI)))
    by (exists old_object; vm_compute; reflexivity).
  split; [exact Hsome |]. split; [vm_compute; reflexivity |].
  exact (no_error_once_cached outage bucket_with_old_object MOONWELL_DEFI Hsome).
Defined.
